(** * Risk prediction core of TechKey Analysis

    A shallow embedding of the risk-prediction code of the repository:
    - [src/predict.py]   : [predict_student_risk] over a dict (rule-based);
    - [src/predictor.py] : [predict_student_risk], [calculate_risk_level],
                           [update_all_student_risks];
    - [src/utils.py]     : [calculate_academic_metrics];
    - [src/train.py]     : [train_model].

    Python floats are modelled as exact rationals [Q] (finite floats only;
    rounding is not modelled).  Python exceptions are modelled by an error
    monad [result]. *)

From Stdlib Require Import String Ascii List ZArith QArith Bool Lia Lqa.
Import ListNotations.
Open Scope string_scope.
Set Warnings "-register-all".

(** Strict order on [Q], as a boolean. *)
Definition Qlt_bool (x y : Q) : bool := negb (Qle_bool y x).

(* ------------------------------------------------------------------ *)
(** ** Python values and exceptions *)

Inductive pyval : Type :=
  | PyNone
  | PyBool (b : bool)
  | PyInt (z : Z)
  | PyFloat (q : Q)
  | PyStr (s : string)
  | PyList (xs : list pyval)
  | PyDict (kvs : list (string * pyval)).

Inductive py_exn : Type :=
  | TypeError
  | ValueError
  | AttributeError
  | IndexError
  | OverflowError
  | OSError
  | OtherError.

Inductive result (A : Type) : Type :=
  | Ret (a : A)
  | Exc (e : py_exn).
Arguments Ret {A} a.
Arguments Exc {A} e.

Definition bind {A B} (m : result A) (k : A -> result B) : result B :=
  match m with
  | Ret a => k a
  | Exc e => Exc e
  end.

Notation "x <- m ;; k" := (bind m (fun x => k))
  (at level 61, m at next level, right associativity).

(** [try: m except Exception: h] *)
Definition try_except {A} (m : result A) (h : py_exn -> result A) : result A :=
  match m with
  | Ret a => Ret a
  | Exc e => h e
  end.

(** [returns_in P r]: when [r] returns normally, its value satisfies [P]. *)
Definition returns_in {A} (P : A -> Prop) (r : result A) : Prop :=
  match r with
  | Ret a => P a
  | Exc _ => True
  end.

(** Numeric view of a value, as Python's numeric tower has it
    ([bool] is a subclass of [int]). *)
Definition py_number (v : pyval) : option Q :=
  match v with
  | PyBool b => Some (if b then 1 else 0)%Q
  | PyInt z => Some (inject_Z z)
  | PyFloat q => Some q
  | _ => None
  end.

(** [v < c] for a numeric literal [c]: numbers compare, anything else
    raises [TypeError] ([None < 50], ['x' < 50], ...). *)
Definition py_lt_num (v : pyval) (c : Q) : result bool :=
  match py_number v with
  | Some q => Ret (Qlt_bool q c)
  | None => Exc TypeError
  end.

(** Short-circuit [a or b]. *)
Definition py_or (a : result bool) (b : unit -> result bool) : result bool :=
  x <- a ;; if x then Ret true else b tt.

(** [d.get(k, default)] on a string-keyed dict. *)
Fixpoint assoc_get (k : string) (kvs : list (string * pyval)) : option pyval :=
  match kvs with
  | [] => None
  | (k', v) :: rest => if String.eqb k k' then Some v else assoc_get k rest
  end.

Definition is_label3 (s : string) : Prop :=
  s = "Low Risk" \/ s = "Medium Risk" \/ s = "High Risk".

Definition is_label4 (s : string) : Prop :=
  is_label3 s \/ s = "Unknown Risk".

(* ------------------------------------------------------------------ *)
(** ** [src/predict.py] *)

Module Predict.

Section WithParser.
(** CPython's [float(str)] parser: [None] when it raises [ValueError]. *)
Variable parse_float : string -> option Q.

(** [float(x)]; an [int] whose magnitude rounds past the largest double
    ([2^1024 - 2^970] and above) raises [OverflowError].  Rounding of
    smaller ints is not modelled; it is monotone and the thresholds below
    are exact, so no comparison changes. *)
Definition py_float (v : pyval) : result Q :=
  match v with
  | PyBool b => Ret (if b then 1 else 0)%Q
  | PyInt z =>
      if (2 ^ 1024 - 2 ^ 970 <=? Z.abs z)%Z then Exc OverflowError
      else Ret (inject_Z z)
  | PyFloat q => Ret q
  | PyStr s =>
      match parse_float s with
      | Some q => Ret q
      | None => Exc ValueError
      end
  | _ => Exc TypeError
  end.

(** [try: x = float(x) except (ValueError, TypeError): x = 0] *)
Definition to_numeric (v : pyval) : result Q :=
  try_except (py_float v)
    (fun e => match e with
              | ValueError | TypeError => Ret 0%Q
              | e' => Exc e'
              end).

(** Lines 24-30: the risk assessment rules. *)
Definition risk_rules (grade attendance : Q) : string :=
  if Qlt_bool grade 60 || Qlt_bool attendance 70 then "High Risk"
  else if Qlt_bool grade 75 || Qlt_bool attendance 80 then "Medium Risk"
  else "Low Risk".

(** [student_data.get(k, 0)]: [AttributeError] on a non-dict. *)
Definition dict_get0 (d : pyval) (k : string) : result pyval :=
  match d with
  | PyDict kvs =>
      match assoc_get k kvs with
      | Some v => Ret v
      | None => Ret (PyInt 0)
      end
  | _ => Exc AttributeError
  end.

(** The whole function; the outer [except Exception] prints the error
    (output not modelled) and returns ["Unknown Risk"]. *)
Definition predict_student_risk (student_data : pyval) : string :=
  match
    (g <- dict_get0 student_data "grade" ;;
     a <- dict_get0 student_data "attendance" ;;
     g' <- to_numeric g ;;
     a' <- to_numeric a ;;
     Ret (risk_rules g' a'))
  with
  | Ret s => s
  | Exc _ => "Unknown Risk"
  end.
End WithParser.

End Predict.

(* ------------------------------------------------------------------ *)
(** ** [src/predictor.py] *)

Module Predictor.

(** A [Student] row as [predictor.py] uses it: an attribute that the
    object lacks is [None] (reading it raises [AttributeError]). *)
Record student : Type := mkStudent {
  stu_id : Z;
  grade_average : option pyval;
  attendance_rate : option pyval;
  risk_level : pyval
}.

Definition getattr (a : option pyval) : result pyval :=
  match a with
  | Some v => Ret v
  | None => Exc AttributeError
  end.

(** Lines 32-41: [calculate_risk_level]. *)
Definition calculate_risk_level (s : student) : result string :=
  high <- py_or (g <- getattr (grade_average s) ;; py_lt_num g 50)
                (fun _ => a <- getattr (attendance_rate s) ;; py_lt_num a 60) ;;
  if high then Ret "High Risk"
  else
    medium <- py_or (g <- getattr (grade_average s) ;; py_lt_num g 70)
                    (fun _ => a <- getattr (attendance_rate s) ;; py_lt_num a 75) ;;
    if medium then Ret "Medium Risk" else Ret "Low Risk".

(** The persisted model as [pickle.load(open('data/trained_model.pkl'))]
    yields it: loading fails with an exception, or gives an object whose
    [predict] maps a batch of feature rows to a list of class values (or
    raises, e.g. [ValueError] on a shape mismatch). *)
Inductive artifact : Type :=
  | LoadFails (e : py_exn)
  | Loaded (predict : list (list pyval) -> result (list pyval)).

Definition load_model (art : artifact)
  : result (list (list pyval) -> result (list pyval)) :=
  match art with
  | LoadFails e => Exc e
  | Loaded m => Ret m
  end.

(** Lines 16-20: the feature vector built at prediction time. *)
Definition features (s : student) : result (list pyval) :=
  g <- getattr (grade_average s) ;;
  a <- getattr (attendance_rate s) ;;
  Ret [g; a].

(** [xs[0]] *)
Definition index0 (xs : list pyval) : result pyval :=
  match xs with
  | x :: _ => Ret x
  | [] => Exc IndexError
  end.

(** Line 25: [risk_levels = {0: 'Low Risk', 1: 'Medium Risk', 2: 'High Risk'}]. *)
Definition risk_levels : list (Z * string) :=
  [(0%Z, "Low Risk"); (1%Z, "Medium Risk"); (2%Z, "High Risk")].

Fixpoint num_key_get (q : Q) (d : list (Z * string)) : option string :=
  match d with
  | [] => None
  | (k, v) :: rest => if Qeq_bool q (inject_Z k) then Some v else num_key_get q rest
  end.

(** Line 26: [risk_levels.get(prediction, 'Unknown Risk')].  Keys compare by
    numeric equality ([0 == 0.0 == False]); an unhashable key (list, dict)
    raises [TypeError]. *)
Definition risk_levels_get (p : pyval) : result string :=
  match p with
  | PyList _ | PyDict _ => Exc TypeError
  | _ =>
      match py_number p with
      | Some q =>
          match num_key_get q risk_levels with
          | Some l => Ret l
          | None => Ret "Unknown Risk"
          end
      | None => Ret "Unknown Risk"
      end
  end.

(** Lines 5-30: [predict_student_risk]; the value returned to the caller. *)
Definition predict_student_risk (art : artifact) (s : student) : result pyval :=
  try_except
    (model <- load_model art ;;
     fs <- features s ;;
     preds <- model [fs] ;;
     prediction <- index0 preds ;;
     l <- risk_levels_get prediction ;;
     Ret (PyStr l))
    (fun _ => l <- calculate_risk_level s ;; Ret (PyStr l)).

Definition set_risk_level (s : student) (v : pyval) : student :=
  mkStudent (stu_id s) (grade_average s) (attendance_rate s) v.

(** The loop of lines 48-50: each student's [risk_level] is assigned in
    the session in turn; an exception leaves the loop. *)
Fixpoint update_loop (art : artifact) (ss : list student) : result (list student) :=
  match ss with
  | [] => Ret []
  | s :: rest =>
      r <- predict_student_risk art s ;;
      rest' <- update_loop art rest ;;
      Ret (set_risk_level s r :: rest')
  end.

(** Lines 43-53: [update_all_student_risks] over the committed table [db]
    ([Student.query.all()]).  It returns [None] ([Ret tt]) and the table
    after [db.session.commit()]; when the loop raises, the commit is not
    reached and the committed table is unchanged. *)
Definition update_all_student_risks (art : artifact) (db : list student)
  : result unit * list student :=
  match update_loop art db with
  | Ret db' => (Ret tt, db')
  | Exc e => (Exc e, db)
  end.

(** [s'] is [s] after the loop body of line 50 with a prediction that
    returned normally. *)
Definition updated_with (art : artifact) (s s' : student) : Prop :=
  exists v, predict_student_risk art s = Ret v /\ s' = set_risk_level s v.

(** Modelled from the spec: the feature layout of [prepare_training_data]
    (imported from [src/predictor.py] by [src/train.py] and the tests, but
    absent from the [predictor.py] under [src/]): the six features of
    section 3 of the spec, in that order. *)
Definition training_feature_names : list string :=
  ["grade_average"; "attendance_rate"; "recent_grade_average";
   "grade_trend"; "missing_assignments"; "course_count"].

End Predictor.

(* ------------------------------------------------------------------ *)
(** ** [src/utils.py] *)

Module Utils.

Fixpoint sumQ (xs : list Q) : Q :=
  match xs with
  | [] => 0
  | x :: rest => x + sumQ rest
  end.

(** [np.mean], as the exact rational mean (the rounding of the float sum
    and division is not modelled). *)
Definition mean (xs : list Q) : Q := sumQ xs / inject_Z (Z.of_nat (length xs)).

(** [np.sqrt] on doubles: the square root to 52 fractional bits. *)
Definition float_sqrt (q : Q) : Q :=
  let n := Qnum q in
  let d := Zpos (Qden q) in
  Z.sqrt (n * d * 2 ^ 104) # (Qden q * 2 ^ 52).

(** [np.std] (population standard deviation). *)
Definition std (xs : list Q) : Q :=
  let m := mean xs in
  float_sqrt (mean (map (fun x => (x - m) * (x - m)) xs)).

Definition list_min (x : Q) (xs : list Q) : Q :=
  fold_left (fun acc y => if Qlt_bool y acc then y else acc) xs x.

Definition list_max (x : Q) (xs : list Q) : Q :=
  fold_left (fun acc y => if Qlt_bool acc y then y else acc) xs x.

(** [np.mean] of a boolean array: the fraction of [True]. *)
Definition bool_mean (bs : list bool) : Q :=
  inject_Z (Z.of_nat (length (filter (fun b => b) bs)))
  / inject_Z (Z.of_nat (length bs)).

(** Lines 14-47: [calculate_academic_metrics], the returned dict in key order. *)
Definition calculate_academic_metrics (grades : list Q) (attendance : list bool)
  : list (string * pyval) :=
  match grades with
  | [] =>
      [("grade_average", PyInt 0); ("grade_std", PyInt 0);
       ("attendance_rate", PyInt 0); ("total_assignments", PyInt 0);
       ("completion_rate", PyInt 0)]
  | g :: gs =>
      [("grade_average", PyFloat (mean grades));
       ("grade_std", PyFloat (std grades));
       ("grade_min", PyFloat (list_min g gs));
       ("grade_max", PyFloat (list_max g gs));
       ("attendance_rate",
          match attendance with
          | [] => PyInt 0
          | _ => PyFloat (bool_mean attendance * 100)
          end);
       ("total_assignments", PyInt (Z.of_nat (length grades)));
       ("completion_rate", PyFloat 100)]
  end.

(** *** The other functions of [src/utils.py] *)

(** Exceptions of these functions beyond [py_exn]. *)
Inductive util_exn : Type :=
  | PyErr (e : py_exn)
  | KeyError (k : string)
  | ZeroDivisionError.

Inductive uresult (A : Type) : Type :=
  | URet (a : A)
  | URaise (e : util_exn).
Arguments URet {A} a.
Arguments URaise {A} e.

Definition ubind {A B} (m : uresult A) (k : A -> uresult B) : uresult B :=
  match m with
  | URet a => k a
  | URaise e => URaise e
  end.

Notation "x <-- m ;; k" := (ubind m (fun x => k))
  (at level 61, m at next level, right associativity).

Definition lift {A} (r : result A) : uresult A :=
  match r with
  | Ret a => URet a
  | Exc e => URaise (PyErr e)
  end.

(** Python truthiness ([if x:], [not x]). *)
Definition py_truthy (v : pyval) : bool :=
  match v with
  | PyNone => false
  | PyBool b => b
  | PyInt z => negb (Z.eqb z 0)
  | PyFloat q => negb (Qeq_bool q 0)
  | PyStr s => negb (String.eqb s "")
  | PyList [] => false
  | PyList _ => true
  | PyDict [] => false
  | PyDict _ => true
  end.

(** [d.get(k, default)]: [AttributeError] on a non-dict. *)
Definition py_get (d : pyval) (k : string) (default : pyval) : result pyval :=
  match d with
  | PyDict kvs =>
      match assoc_get k kvs with
      | Some v => Ret v
      | None => Ret default
      end
  | _ => Exc AttributeError
  end.

(** ['@' in v]: character membership on [str], [==] membership on [list],
    key membership on [dict]; [TypeError] otherwise. *)
Definition py_contains_at (v : pyval) : result bool :=
  match v with
  | PyStr s => Ret (existsb (fun c => Ascii.eqb c "@"%char) (list_ascii_of_string s))
  | PyList xs =>
      Ret (existsb (fun x => match x with PyStr t => String.eqb t "@" | _ => false end) xs)
  | PyDict kvs => Ret (match assoc_get "@" kvs with Some _ => true | None => false end)
  | _ => Exc TypeError
  end.

(** [v.startswith(('S', 's'))]: only [str] has the method. *)
Definition py_startswith_S (v : pyval) : result bool :=
  match v with
  | PyStr (String c _) => Ret (Ascii.eqb c "S"%char || Ascii.eqb c "s"%char)
  | PyStr EmptyString => Ret false
  | _ => Exc AttributeError
  end.

(** Lines 166-169: the loop over [required_fields]. *)
Fixpoint check_required (d : pyval) (fields : list string) (errors : list string)
  : result (list string) :=
  match fields with
  | [] => Ret errors
  | f :: rest =>
      v <- py_get d f PyNone ;;
      check_required d rest
        (if py_truthy v then errors
         else app errors ["Missing required field: " ++ f])
  end.

(** Lines 153-181: [validate_student_data]. *)
Definition validate_student_data (student_data : pyval) : result (bool * list string) :=
  e1 <- check_required student_data ["student_id"; "name"] [] ;;
  email <- py_get student_data "email" PyNone ;;
  e2 <- (if py_truthy email then
           has <- py_contains_at email ;;
           Ret (if has then e1 else app e1 ["Invalid email format"])
         else Ret e1) ;;
  sid <- py_get student_data "student_id" (PyStr "") ;;
  e3 <- (if py_truthy sid then
           ok <- py_startswith_S sid ;;
           Ret (if ok then e2 else app e2 ["Student ID should start with 'S'"])
         else Ret e2) ;;
  Ret (match e3 with [] => true | _ => false end, e3).

(** Strings of [format_phone_number] and [truncate_text] as lists of
    characters (ASCII text: [len] counts characters and [str.isdigit] is
    ['0'..'9']). *)
Definition lit (s : string) : list ascii := list_ascii_of_string s.

Definition is_digit (c : ascii) : bool :=
  let n := nat_of_ascii c in (48 <=? n)%nat && (n <=? 57)%nat.

(** [''.join(filter(str.isdigit, phone))] *)
Definition digits_of (s : list ascii) : list ascii := filter is_digit s.

(** [s[i:j]] for [0 <= i <= j]. *)
Definition slice (i j : nat) (s : list ascii) : list ascii := firstn (j - i) (skipn i s).

(** Lines 211-232: [format_phone_number]. *)
Definition format_phone_number (phone : list ascii) : list ascii :=
  match phone with
  | [] => []
  | _ =>
      let digits := digits_of phone in
      if (length digits =? 10)%nat then
        (lit "(" ++ slice 0 3 digits ++ lit ") " ++ slice 3 6 digits ++ lit "-"
         ++ skipn 6 digits)%list
      else if (length digits =? 11)%nat &&
              match digits with c :: _ => Ascii.eqb c "1"%char | [] => false end then
        (lit "+1 (" ++ slice 1 4 digits ++ lit ") " ++ slice 4 7 digits ++ lit "-"
         ++ skipn 7 digits)%list
      else phone
  end.

(** [s[:k]] for any int [k]: a negative [k] counts from the end. *)
Definition py_prefix (s : list ascii) (k : Z) : list ascii :=
  if (0 <=? k)%Z then firstn (Z.to_nat k) s
  else firstn (Z.to_nat (Z.of_nat (length s) + k)) s.

(** Lines 269-284: [truncate_text]. *)
Definition truncate_text (text : list ascii) (max_length : Z) (suffix : list ascii)
  : list ascii :=
  if (Z.of_nat (length text) <=? max_length)%Z then text
  else (py_prefix text (max_length - Z.of_nat (length suffix)) ++ suffix)%list.

(** [date] values as proleptic ordinals ([date.toordinal()]); [date.max]
    is 9999-12-31. *)
Definition date_max : Z := 3652059.

(** Lines 184-208: [calculate_semester_progress]; [today] is
    [date.today()].  Adding [timedelta(days=120)] past [date.max] raises
    [OverflowError]. *)
Definition calculate_semester_progress (today start_date : Z) (end_date : option Z)
  : uresult Q :=
  end_d <-- (match end_date with
             | None =>
                 if (start_date + 120 <=? date_max)%Z then URet (start_date + 120)%Z
                 else URaise (PyErr OverflowError)
             | Some e => URet e
             end) ;;
  if (today <? start_date)%Z then URet 0
  else if (end_d <? today)%Z then URet 100
  else
    let total_days := (end_d - start_date)%Z in
    let elapsed_days := (today - start_date)%Z in
    if (total_days =? 0)%Z then URaise ZeroDivisionError
    else URet (inject_Z elapsed_days / inject_Z total_days * 100).

(** Lines 235-249: [safe_float]; [float(str)] is the parser [parse_float]. *)
Definition safe_float (parse_float : string -> option Q) (value : pyval) (default : Q)
  : result Q :=
  try_except (Predict.py_float parse_float value)
    (fun e => match e with
              | ValueError | TypeError => Ret default
              | e' => Exc e'
              end).

Record recommendation : Type := mkRec {
  rec_type : string;
  priority : string;
  action : string;
  reason : string
}.

Record report : Type := mkReport {
  student_info : list (string * pyval);
  academic_metrics : pyval;
  risk_assessment : pyval;
  recommendations : list recommendation;
  generated_at : string
}.

Section Report.
(** [f'{x:.1f}'] on a number. *)
Variable format_1f : Q -> string.

(** [metrics[k]] formatted with [:.1f]. *)
Definition format_item (metrics : pyval) (k : string) : uresult string :=
  match metrics with
  | PyDict kvs =>
      match assoc_get k kvs with
      | Some v =>
          match py_number v with
          | Some q => URet (format_1f q)
          | None => URaise (PyErr ValueError)
          end
      | None => URaise (KeyError k)
      end
  | _ => URaise (PyErr TypeError)
  end.

(** Lines 50-114: [generate_student_report]; [now] is
    [datetime.now().isoformat()]. *)
Definition generate_student_report (now : string) (student_data : pyval)
  (include_charts : bool) : uresult report :=
  name <-- lift (py_get student_data "name" (PyStr "")) ;;
  sid <-- lift (py_get student_data "student_id" (PyStr "")) ;;
  email <-- lift (py_get student_data "email" (PyStr "")) ;;
  enr <-- lift (py_get student_data "enrollment_date" (PyStr "")) ;;
  am <-- lift (py_get student_data "metrics" (PyDict [])) ;;
  ra <-- lift (py_get student_data "risk_assessment" (PyDict [])) ;;
  metrics <-- lift (py_get student_data "metrics" (PyDict [])) ;;
  ra' <-- lift (py_get student_data "risk_assessment" (PyDict [])) ;;
  risk_level <-- lift (py_get ra' "level" (PyStr "Unknown")) ;;
  ga <-- lift (py_get metrics "grade_average" (PyInt 0)) ;;
  low_grade <-- lift (py_lt_num ga 60) ;;
  r1 <-- (if low_grade then
            txt <-- format_item metrics "grade_average" ;;
            URet [mkRec "academic" "high" "Schedule academic intervention"
                        ("Low grade average (" ++ txt ++ "%)")]
          else URet []) ;;
  ar <-- lift (py_get metrics "attendance_rate" (PyInt 0)) ;;
  low_att <-- lift (py_lt_num ar 75) ;;
  r2 <-- (if low_att then
            txt <-- format_item metrics "attendance_rate" ;;
            URet [mkRec "attendance" "high" "Address attendance issues"
                        ("Low attendance rate (" ++ txt ++ "%)")]
          else URet []) ;;
  let r3 := match risk_level with
            | PyStr l => if String.eqb l "High Risk" then
                           [mkRec "general" "high" "Immediate advisor consultation"
                                  "High risk classification"]
                         else []
            | _ => []
            end in
  let recs := app r1 (app r2 r3) in
  let recs' := match recs with
               | [] => [mkRec "general" "low" "Continue current support"
                              "Student performing adequately"]
               | _ => recs
               end in
  URet (mkReport [("name", name); ("student_id", sid); ("email", email);
                  ("enrollment_date", enr)] am ra recs' now).
End Report.

End Utils.

(* ------------------------------------------------------------------ *)
(** ** [src/train.py] *)

Module Train.

(** [X, y, feature_names] as returned by [prepare_training_data]. *)
Record dataset : Type := mkDataset {
  X : list (list Q);
  y : list Z;
  feature_names : list string
}.

Section Training.
(** The fitted classifier type. *)
Variable model_t : Type.
(** Lines 42-62: stratified split, [RandomForestClassifier.fit] and the
    test accuracy; scikit-learn may raise (e.g. [ValueError] from a
    stratified split of a class with one member). *)
Variable fit_and_evaluate : list (list Q) -> list Z -> result (model_t * Q).

(** A file's contents: a pickled model, the pickled feature info, or what
    a [joblib.dump] interrupted after opening its file leaves behind. *)
Inductive stored : Type :=
  | ModelPickle (m : model_t)
  | FeatureInfo (names : list string) (accuracy : Q)
  | Truncated.

(** The files under the project root. *)
Definition files := list (string * stored).

(** [joblib.dump] may raise: [FileNotFoundError] when [data/] does not
    exist ([train.py] never creates it), [PermissionError], a full disk,
    ...  [dump_error path fs] is the exception raised writing [path] in
    the file system [fs], if any, with [true] when the file was already
    opened (so truncated) at that point. *)
Variable dump_error : string -> files -> option (py_exn * bool).

Definition put_file (path : string) (v : stored) (fs : files) : files :=
  (path, v) :: filter (fun kv => negb (String.eqb (fst kv) path)) fs.

(** [joblib.dump(v, path)]: the Python result and the files afterwards. *)
Definition write_file (path : string) (v : stored) (fs : files) : result unit * files :=
  match dump_error path fs with
  | None => (Ret tt, put_file path v fs)
  | Some (e, opened) => (Exc e, if opened then put_file path Truncated fs else fs)
  end.

(** Lines 25-87: [train_model]; [prepared] is what
    [prepare_training_data(session)] gives.  Returns the Python result,
    the files afterwards and the printed lines.  [except Exception]
    prints and re-raises; [finally] closes the session. *)
Definition train_model (prepared : result dataset) (fs : files)
  : result unit * files * list string :=
  let log0 := ["Starting model training..."; "Preparing training data..."] in
  let err := "Error during model training" in
  match prepared with
  | Exc e => (Exc e, fs, app log0 [err])
  | Ret ds =>
      match X ds with
      | [] => (Ret tt, fs, app log0 ["No training data available."])
      | _ =>
          match fit_and_evaluate (X ds) (y ds) with
          | Exc e => (Exc e, fs, app log0 [err])
          | Ret (m, acc) =>
              let log1 := app log0 ["Model trained successfully!"] in
              match write_file "data/trained_model.pkl" (ModelPickle m) fs with
              | (Exc e, fs1) => (Exc e, fs1, app log1 [err])
              | (Ret _, fs1) =>
                  match write_file "data/feature_info.pkl"
                          (FeatureInfo (feature_names ds) acc) fs1 with
                  | (Exc e, fs2) => (Exc e, fs2, app log1 ["Model saved"; err])
                  | (Ret _, fs2) =>
                      (Ret tt, fs2,
                       app log1 ["Model saved"; "Model training completed successfully!"])
                  end
              end
          end
      end
  end.
End Training.

End Train.

(* ------------------------------------------------------------------ *)
(** ** [src/app.py] *)

Module App.
Import Predictor.

Section Api.
(** [str(e)] *)
Variable exn_str : py_exn -> string.

(** What the handler sends back: its JSON body ([success], [message]), or
    Flask-Login's redirect to [login_manager.login_view] ([login]) when
    [@login_required] finds no authenticated user. *)
Inductive response : Type :=
  | JsonBody (success : bool) (message : string)
  | LoginRedirect.

(** Lines 325-331: the [/api/update_risks] handler behind
    [@login_required] ([authenticated] is [current_user.is_authenticated]);
    the response and the committed table. *)
Definition api_update_risks (authenticated : bool) (art : artifact) (db : list student)
  : response * list student :=
  if negb authenticated then (LoginRedirect, db)
  else
    match update_all_student_risks art db with
    | (Ret _, db') => (JsonBody true "Risk levels updated successfully", db')
    | (Exc e, db') => (JsonBody false ("Error updating risks: " ++ exn_str e), db')
    end.
End Api.

End App.

(* ------------------------------------------------------------------ *)
(** ** Concrete inputs *)

Module Inputs.
Import Predictor.

(** A student with grade average 55 and attendance rate 65. *)
Definition s55 : student := mkStudent 1 (Some (PyInt 55)) (Some (PyInt 65)) PyNone.

(** A student whose [grade_average] is [None] (e.g. a NULL column). *)
Definition s_none : student := mkStudent 2 (Some PyNone) (Some (PyInt 65)) PyNone.

(** No model file on disk: [open] raises [FileNotFoundError]. *)
Definition no_model : artifact := LoadFails OSError.

(** A model whose [predict] answers class 3. *)
Definition model3 : artifact := Loaded (fun _ => Ret [PyInt 3]).


End Inputs.

(* ------------------------------------------------------------------ *)
(** ** Measures used in the statements *)

Module Measures.

(** Severity of a label: High 2, Medium 1, anything else 0. *)
Definition risk_rank (l : string) : nat :=
  if String.eqb l "High Risk" then 2
  else if String.eqb l "Medium Risk" then 1
  else 0.

(** [float(v)] does not overflow. *)
Definition no_overflow (v : pyval) : Prop :=
  match v with
  | PyInt z => (Z.abs z < 2 ^ 1024 - 2 ^ 970)%Z
  | _ => True
  end.

(** The value stored at a key of a dict, [True] when the key is absent. *)
Definition key_ok (P : pyval -> Prop) (k : string) (kvs : list (string * pyval)) : Prop :=
  match assoc_get k kvs with
  | Some v => P v
  | None => True
  end.

(** A [str] [student_id] that passes [startswith(('S', 's'))]. *)
Definition sid_ok (sid : string) : Prop :=
  match sid with
  | String c _ => c = "S"%char \/ c = "s"%char
  | EmptyString => False
  end.

(** The [email] check of [validate_student_data] passes for a [str] value. *)
Definition email_ok (kvs : list (string * pyval)) : Prop :=
  match assoc_get "email" kvs with
  | Some (PyStr e) => e = "" \/ In "@"%char (list_ascii_of_string e)
  | _ => True
  end.

(** The contents of the file at [p], if any. *)
Definition file_at {M : Type} (p : string) (fs : Train.files M) : option (Train.stored M) :=
  option_map snd (find (fun kv => String.eqb (fst kv) p) fs).

(** The number [predict.py] rates for a dict entry: [0] when the key is
    absent, the value [float()] gives, or [0] when [float()] rejects it. *)
Definition float_or_0 (parse_float : string -> option Q) (v : option pyval) : Q :=
  match v with
  | None => 0
  | Some w =>
      match Predict.py_float parse_float w with
      | Ret q => q
      | Exc _ => 0
      end
  end.

End Measures.

(* ------------------------------------------------------------------ *)
(** ** Sanity checks on small inputs *)

Example predictor_fallback_55_65 :
  Predictor.calculate_risk_level Inputs.s55 = Ret "Medium Risk".
Proof. reflexivity. Qed.

Example predict_py_78_88 :
  forall p, Predict.predict_student_risk p
    (PyDict [("grade", PyInt 78); ("attendance", PyInt 88)]) = "Low Risk".
Proof. reflexivity. Qed.

Example metrics_two_grades :
  Utils.calculate_academic_metrics [80; 60] [true; false; true; true] =
  [("grade_average", PyFloat (Utils.mean [80; 60]));
   ("grade_std", PyFloat (Utils.std [80; 60]));
   ("grade_min", PyFloat 60); ("grade_max", PyFloat 80);
   ("attendance_rate", PyFloat (Utils.bool_mean [true; false; true; true] * 100));
   ("total_assignments", PyInt 2); ("completion_rate", PyFloat 100)].
Proof. reflexivity. Qed.

Example std_80_60 : Qeq_bool (Utils.std [80; 60]) 10 = true.
Proof. vm_compute. reflexivity. Qed.

(* ------------------------------------------------------------------ *)
(** ** Shared lemmas *)

Module Facts.
Import Predictor.

Lemma risk_rules_label3 (g a : Q) : is_label3 (Predict.risk_rules g a).
Proof.
  unfold Predict.risk_rules, is_label3.
  destruct (Qlt_bool g 60 || Qlt_bool a 70); [auto|].
  destruct (Qlt_bool g 75 || Qlt_bool a 80); auto.
Qed.

Lemma calculate_risk_level_label3 (s : student) :
  returns_in is_label3 (calculate_risk_level s).
Proof.
  unfold calculate_risk_level, py_or, bind.
  destruct (getattr (grade_average s)) as [g|]; [|exact I].
  destruct (py_lt_num g 50) as [[]|]; cbn; [unfold is_label3; auto| |exact I].
  - destruct (getattr (attendance_rate s)) as [a|]; [|exact I].
    destruct (py_lt_num a 60) as [[]|]; cbn; [unfold is_label3; auto| |exact I].
    destruct (py_lt_num g 70) as [[]|]; cbn; [unfold is_label3; auto| |exact I].
    destruct (py_lt_num a 75) as [[]|]; cbn; unfold is_label3; auto.
Qed.

Lemma num_key_get_label3 (q : Q) :
  match num_key_get q risk_levels with
  | Some l => is_label3 l
  | None => True
  end.
Proof.
  unfold risk_levels, is_label3; cbn.
  destruct (Qeq_bool q (inject_Z 0)); auto.
  destruct (Qeq_bool q (inject_Z 1)); auto.
  destruct (Qeq_bool q (inject_Z 2)); auto.
Qed.

Lemma risk_levels_get_label4 (p : pyval) :
  returns_in is_label4 (risk_levels_get p).
Proof.
  unfold risk_levels_get, is_label4.
  destruct p; cbn -[num_key_get risk_levels]; auto;
  match goal with
  | |- context [num_key_get ?q risk_levels] =>
      pose proof (num_key_get_label3 q) as H;
      destruct (num_key_get q risk_levels); cbn; auto
  end.
Qed.

Lemma predict_returns_label4 (art : artifact) (s : student) :
  returns_in (fun v => exists l, v = PyStr l /\ is_label4 l)
             (predict_student_risk art s).
Proof.
  unfold predict_student_risk, try_except, bind.
  destruct (load_model art) as [m|]; cbn.
  2:{ pose proof (calculate_risk_level_label3 s) as H.
      destruct (calculate_risk_level s); cbn; eauto.
      eexists; split; [reflexivity|left; exact H]. }
  destruct (features s) as [fs|]; cbn.
  2:{ pose proof (calculate_risk_level_label3 s) as H.
      destruct (calculate_risk_level s); cbn; eauto.
      eexists; split; [reflexivity|left; exact H]. }
  destruct (m [fs]) as [ps|]; cbn.
  2:{ pose proof (calculate_risk_level_label3 s) as H.
      destruct (calculate_risk_level s); cbn; eauto.
      eexists; split; [reflexivity|left; exact H]. }
  destruct (index0 ps) as [p|]; cbn.
  2:{ pose proof (calculate_risk_level_label3 s) as H.
      destruct (calculate_risk_level s); cbn; eauto.
      eexists; split; [reflexivity|left; exact H]. }
  pose proof (risk_levels_get_label4 p) as Hp.
  destruct (risk_levels_get p); cbn.
  - eauto.
  - pose proof (calculate_risk_level_label3 s) as H.
    destruct (calculate_risk_level s); cbn; eauto.
    eexists; split; [reflexivity|left; exact H].
Qed.

End Facts.

(* ------------------------------------------------------------------ *)
(** ** Claims *)

Import Predictor Inputs.

(** C1: under the default policy (60/70 high, 75/80 medium) of
    [predict.py], grade 55 and attendance 65 give ["High Risk"], for the
    rule itself and for [predict_student_risk] on the dict, whatever the
    string parser. *)
Theorem default_policy_55_65_high_risk (parse_float : string -> option Q) :
  Predict.risk_rules 55 65 = "High Risk" /\
  Predict.predict_student_risk parse_float
    (PyDict [("grade", PyInt 55); ("attendance", PyInt 65)]) = "High Risk".
Proof. split; reflexivity. Qed.

(** C2: on numeric grade and attendance values the rule-based fallback
    returns normally one of the three canonical labels ([risk_rules] of
    [predict.py] and [calculate_risk_level] of [predictor.py]); and
    [calculate_risk_level] reads nothing but these two attributes, so two
    students with the same pair get the same answer. *)
Theorem fallback_total_label3_pure :
  (forall g a : Q, is_label3 (Predict.risk_rules g a)) /\
  (forall (s : student) (gv av : pyval) (g a : Q),
     grade_average s = Some gv -> attendance_rate s = Some av ->
     py_number gv = Some g -> py_number av = Some a ->
     exists l, calculate_risk_level s = Ret l /\ is_label3 l) /\
  (forall s1 s2 : student,
     grade_average s1 = grade_average s2 ->
     attendance_rate s1 = attendance_rate s2 ->
     calculate_risk_level s1 = calculate_risk_level s2).
Proof.
  split; [exact Facts.risk_rules_label3|split].
  - intros s gv av g a Hg Ha Hgn Han.
    pose proof (Facts.calculate_risk_level_label3 s) as H.
    unfold calculate_risk_level, py_or, bind, py_lt_num in *.
    rewrite Hg, Ha in *; cbn in *. rewrite Hgn, Han in *; cbn in *.
    destruct (Qlt_bool g 50); cbn in *; [eauto|].
    destruct (Qlt_bool a 60); cbn in *; [eauto|].
    destruct (Qlt_bool g 70); cbn in *; [eauto|].
    destruct (Qlt_bool a 75); cbn in *; eauto.
  - intros s1 s2 Hg Ha.
    unfold calculate_risk_level. rewrite Hg, Ha. reflexivity.
Qed.

(** C3 (code_bug): with no model file, a student whose [grade_average]
    is [None] makes [predict_student_risk] of [predictor.py] raise
    [TypeError]: the fallback [calculate_risk_level] compares [None < 50]
    outside any handler. *)
Theorem predict_raises_on_none_grade :
  predict_student_risk no_model s_none = Exc TypeError.
Proof. reflexivity. Qed.

(** C4 (counterexample): a model answering class 3 makes the model path
    return ["Unknown Risk"], which is not one of the three labels. *)
Lemma label_mapping_fourth_value :
  predict_student_risk model3 s55 = Ret (PyStr "Unknown Risk") /\
  ~ is_label3 "Unknown Risk".
Proof.
  split; [reflexivity|].
  unfold is_label3. intros [H|[H|H]]; discriminate.
Qed.

(** C4 (amended): [risk_levels.get] sends every hashable output equal to
    0, 1 or 2 (so also [0.0], [True], [2.0], ...) to ["Low Risk"],
    ["Medium Risk"], ["High Risk"], and every other hashable output
    (another number, a string, [None]) to ["Unknown Risk"]; an unhashable
    output raises [TypeError], which the handler turns into the fallback.
    So [predict_student_risk] returns, when it returns, one of these four
    labels. *)
Theorem label_mapping_four_labels :
  (forall (p : pyval) (q : Q), py_number p = Some q ->
     ((q == 0)%Q -> risk_levels_get p = Ret "Low Risk") /\
     ((q == 1)%Q -> risk_levels_get p = Ret "Medium Risk") /\
     ((q == 2)%Q -> risk_levels_get p = Ret "High Risk") /\
     (~ (q == 0)%Q -> ~ (q == 1)%Q -> ~ (q == 2)%Q -> risk_levels_get p = Ret "Unknown Risk")) /\
  (forall p : pyval, py_number p = None ->
     (forall xs, p <> PyList xs) -> (forall kvs, p <> PyDict kvs) ->
     risk_levels_get p = Ret "Unknown Risk") /\
  (forall xs, risk_levels_get (PyList xs) = Exc TypeError) /\
  (forall kvs, risk_levels_get (PyDict kvs) = Exc TypeError) /\
  (forall (art : artifact) (s : student),
     returns_in (fun v => exists l, v = PyStr l /\ is_label4 l)
                (predict_student_risk art s)).
Proof.
  split; [|split; [|split; [|split]]].
  - intros p q Hp.
    assert (E : risk_levels_get p =
                match num_key_get q risk_levels with
                | Some l => Ret l
                | None => Ret "Unknown Risk"
                end).
    { destruct p; cbn in Hp; try discriminate; inversion Hp; reflexivity. }
    rewrite E. cbn [num_key_get risk_levels inject_Z].
    destruct (Qeq_bool q (inject_Z 0)) eqn:E0;
      [apply Qeq_bool_iff in E0|apply Qeq_bool_neq in E0];
    (destruct (Qeq_bool q (inject_Z 1)) eqn:E1;
      [apply Qeq_bool_iff in E1|apply Qeq_bool_neq in E1]);
    (destruct (Qeq_bool q (inject_Z 2)) eqn:E2;
      [apply Qeq_bool_iff in E2|apply Qeq_bool_neq in E2]);
    unfold inject_Z in *;
    repeat split; intros; try reflexivity; exfalso;
    first [ lra | match goal with H : ~ _ |- _ => apply H; lra end ].
  - intros p Hp Hl Hd. destruct p; cbn in Hp |- *; try discriminate; try reflexivity.
    + exfalso. eapply Hl. reflexivity.
    + exfalso. eapply Hd. reflexivity.
  - reflexivity.
  - reflexivity.
  - exact Facts.predict_returns_label4.
Qed.


(** C6 (code_bug): at prediction time the classifier is fed the two
    fields [grade_average, attendance_rate] (lines 16-20) for every
    student, against the six features of the training layout. *)
Theorem prediction_features_two_of_six :
  (forall (s : student) (fs : list pyval), features s = Ret fs ->
     fs = match grade_average s, attendance_rate s with
          | Some g, Some a => [g; a]
          | _, _ => fs
          end /\ length fs = 2%nat) /\
  features s55 = Ret [PyInt 55; PyInt 65] /\
  length training_feature_names = 6%nat.
Proof.
  split; [|split; reflexivity].
  intros [id [g|] [a|] r] fs H; cbn in H; try discriminate.
  inversion H; subst. split; reflexivity.
Qed.

(** C7 (counterexample): one student whose prediction raises ([s_none])
    aborts the batch: [s55], whose own prediction returns ["Medium Risk"],
    is not updated in the committed table.  A batch that completes returns
    [None]: no success or failure counts are reported. *)
Lemma batch_aborts_on_one_failure :
  predict_student_risk no_model s55 = Ret (PyStr "Medium Risk") /\
  update_all_student_risks no_model [s_none; s55] = (Exc TypeError, [s_none; s55]) /\
  risk_level s55 = PyNone /\
  update_all_student_risks no_model [s55] =
    (Ret tt, [set_risk_level s55 (PyStr "Medium Risk")]).
Proof. repeat split; reflexivity. Qed.

Lemma update_loop_ok (art : artifact) (db : list student) :
  Forall (fun s => exists v, predict_student_risk art s = Ret v) db ->
  exists db', update_loop art db = Ret db' /\ Forall2 (updated_with art) db db'.
Proof.
  induction db as [|s rest IH]; intros H.
  - exists []. split; [reflexivity|constructor].
  - inversion H as [|? ? [v Hv] Hrest]; subst.
    destruct (IH Hrest) as [db' [E F]].
    exists (set_risk_level s v :: db'). cbn. rewrite Hv, E.
    split; [reflexivity|]. constructor; [exists v; auto|exact F].
Qed.

Lemma update_loop_exc (art : artifact) (db : list student) :
  Exists (fun s => exists e, predict_student_risk art s = Exc e) db ->
  exists e, update_loop art db = Exc e.
Proof.
  induction db as [|s rest IH]; intros H; [inversion H|].
  cbn. destruct (predict_student_risk art s) as [v|e] eqn:Hs; cbn; [|eauto].
  inversion H as [? ? [e He]|? ? Hrest]; subst.
  - congruence.
  - destruct (IH Hrest) as [e Hl]. rewrite Hl. cbn. eauto.
Qed.

(** C7 (amended): the batch is all-or-nothing.  When every prediction
    returns, every student's [risk_level] is set to its prediction and
    committed, and the call returns [None] (no counts).  When any
    prediction raises, the exception propagates out of
    [update_all_student_risks] and the committed table is unchanged. *)
Theorem batch_all_or_nothing (art : artifact) (db : list student) :
  (Forall (fun s => exists v, predict_student_risk art s = Ret v) db ->
   exists db', update_all_student_risks art db = (Ret tt, db') /\
               Forall2 (updated_with art) db db') /\
  (Exists (fun s => exists e, predict_student_risk art s = Exc e) db ->
   exists e, update_all_student_risks art db = (Exc e, db)).
Proof.
  unfold update_all_student_risks. split; intros H.
  - destruct (update_loop_ok art db H) as [db' [E F]]. rewrite E. eauto.
  - destruct (update_loop_exc art db H) as [e E]. rewrite E. eauto.
Qed.

(** C8: on a dataset with no rows [train_model] returns normally after
    printing "No training data available.", never fits a model, and leaves
    every file (hence any earlier model artifact) as it was. *)
Theorem empty_training_data_writes_nothing
  (model_t : Type) (fit : list (list Q) -> list Z -> result (model_t * Q))
  (dump_error : string -> Train.files model_t -> option (py_exn * bool))
  (ys : list Z) (names : list string) (fs : Train.files model_t) :
  Train.train_model model_t fit dump_error (Ret (Train.mkDataset [] ys names)) fs =
  (Ret tt, fs,
   ["Starting model training..."; "Preparing training data...";
    "No training data available."]).
Proof. reflexivity. Qed.

(** C9 (counterexample): with no grades and one present attendance record,
    whose rate is 100, [attendance_rate] is 0. *)
Lemma attendance_zero_without_grades :
  assoc_get "attendance_rate" (Utils.calculate_academic_metrics [] [true]) =
    Some (PyInt 0) /\
  Utils.bool_mean [true] * 100 == 100.
Proof. split; reflexivity. Qed.

Lemma count_present (att : list bool) :
  length (filter (fun b => b) att) = count_occ Bool.bool_dec att true.
Proof.
  induction att as [|[] rest IH]; cbn; [reflexivity| |]; rewrite IH; reflexivity.
Qed.

(** C9 (amended): with a non-empty grade list, [attendance_rate] is
    present_count / total_count * 100 over the attendance records, or 0
    when there are none; with an empty grade list it is 0 whatever the
    attendance records. *)
Theorem attendance_rate_formula (grades : list Q) (att : list bool) :
  assoc_get "attendance_rate" (Utils.calculate_academic_metrics grades att) =
  Some (match grades, att with
        | [], _ => PyInt 0
        | _, [] => PyInt 0
        | _, _ =>
            PyFloat (inject_Z (Z.of_nat (count_occ Bool.bool_dec att true))
                     / inject_Z (Z.of_nat (length att)) * 100)
        end).
Proof.
  destruct grades as [|g gs]; [reflexivity|].
  destruct att as [|b bs]; [reflexivity|].
  cbn -[count_occ filter length]. unfold Utils.bool_mean.
  rewrite count_present. reflexivity.
Qed.

(** C10: for no grades the dict has exactly the five keys [grade_average],
    [grade_std], [attendance_rate], [total_assignments], [completion_rate],
    all 0; for a non-empty grade list it has seven keys, adding [grade_min]
    and [grade_max], and [completion_rate] is 100.0. *)
Theorem metrics_key_sets :
  (forall att : list bool,
     map fst (Utils.calculate_academic_metrics [] att) =
       ["grade_average"; "grade_std"; "attendance_rate";
        "total_assignments"; "completion_rate"] /\
     Forall (fun kv => snd kv = PyInt 0) (Utils.calculate_academic_metrics [] att)) /\
  (forall (g : Q) (gs : list Q) (att : list bool),
     map fst (Utils.calculate_academic_metrics (g :: gs) att) =
       ["grade_average"; "grade_std"; "grade_min"; "grade_max";
        "attendance_rate"; "total_assignments"; "completion_rate"] /\
     assoc_get "completion_rate" (Utils.calculate_academic_metrics (g :: gs) att) =
       Some (PyFloat 100)).
Proof.
  split; intros; split; cbn; repeat constructor.
Qed.

(* ------------------------------------------------------------------ *)
(** ** Witnesses *)

(** [fallback_total_label3_pure] at grade 55, attendance 65. *)
Lemma fallback_total_label3_pure_witness :
  (exists l, calculate_risk_level s55 = Ret l /\ is_label3 l) /\
  calculate_risk_level s55 =
    calculate_risk_level (mkStudent 7 (Some (PyInt 55)) (Some (PyInt 65)) (PyStr "High Risk")).
Proof.
  destruct fallback_total_label3_pure as [_ [H2 H3]]. split.
  - apply (H2 s55 (PyInt 55) (PyInt 65) 55 65); reflexivity.
  - apply H3; reflexivity.
Defined.

(** [batch_all_or_nothing] on a batch that succeeds and on one that fails. *)
Lemma batch_all_or_nothing_witness :
  (exists db', update_all_student_risks no_model [s55] = (Ret tt, db') /\
               Forall2 (updated_with no_model) [s55] db') /\
  (exists e, update_all_student_risks no_model [s_none; s55] = (Exc e, [s_none; s55])).
Proof.
  split.
  - apply (proj1 (batch_all_or_nothing no_model [s55])).
    constructor; [exists (PyStr "Medium Risk"); reflexivity|constructor].
  - apply (proj2 (batch_all_or_nothing no_model [s_none; s55])).
    apply Exists_cons_hd. exists TypeError. reflexivity.
Defined.

(* ------------------------------------------------------------------ *)
(** ** Further properties of the code *)

Module Extras.
Import Predictor Inputs Measures.

Lemma Qlt_bool_true (x y : Q) : Qlt_bool x y = true -> x < y.
Proof.
  unfold Qlt_bool. intros H. apply negb_true_iff in H.
  apply Qnot_le_lt. intros Hle. apply Qle_bool_iff in Hle. congruence.
Qed.

Lemma Qlt_bool_false (x y : Q) : Qlt_bool x y = false -> y <= x.
Proof.
  unfold Qlt_bool. intros H. apply negb_false_iff in H. apply Qle_bool_iff, H.
Qed.

Ltac qlt_cases :=
  repeat match goal with
         | |- context [Qlt_bool ?x ?y] =>
             let E := fresh "E" in destruct (Qlt_bool x y) eqn:E
         end;
  repeat match goal with
         | H : Qlt_bool _ _ = true |- _ => apply Qlt_bool_true in H
         | H : Qlt_bool _ _ = false |- _ => apply Qlt_bool_false in H
         end.

(** [calculate_risk_level] on numeric attributes: thresholds 50/60 for
    High and 70/75 for Medium. *)
Lemma calculate_risk_level_numeric (s : student) (gv av : pyval) (g a : Q) :
  grade_average s = Some gv -> attendance_rate s = Some av ->
  py_number gv = Some g -> py_number av = Some a ->
  calculate_risk_level s =
  Ret (if Qlt_bool g 50 || Qlt_bool a 60 then "High Risk"
       else if Qlt_bool g 70 || Qlt_bool a 75 then "Medium Risk"
       else "Low Risk").
Proof.
  intros Hg Ha Hgn Han.
  unfold calculate_risk_level, py_or, bind, py_lt_num, getattr.
  rewrite Hg, Ha, Hgn, Han.
  destruct (Qlt_bool g 50); [reflexivity|].
  destruct (Qlt_bool a 60); [reflexivity|].
  destruct (Qlt_bool g 70); [reflexivity|].
  destruct (Qlt_bool a 75); reflexivity.
Qed.

(** The rules of [predict.py] are antitone: a student with a grade and an
    attendance at least as high never gets a more severe label. *)
Theorem risk_rules_antitone (g1 a1 g2 a2 : Q) :
  g1 <= g2 -> a1 <= a2 ->
  (risk_rank (Predict.risk_rules g2 a2) <= risk_rank (Predict.risk_rules g1 a1))%nat.
Proof.
  intros Hg Ha. unfold Predict.risk_rules. qlt_cases; cbn; try lia; lra.
Qed.

(** The same for [calculate_risk_level] of [predictor.py], on students
    whose two attributes are numbers. *)
Theorem calculate_risk_level_antitone (s1 s2 : student) (gv1 av1 gv2 av2 : pyval)
  (g1 a1 g2 a2 : Q) :
  grade_average s1 = Some gv1 -> attendance_rate s1 = Some av1 ->
  grade_average s2 = Some gv2 -> attendance_rate s2 = Some av2 ->
  py_number gv1 = Some g1 -> py_number av1 = Some a1 ->
  py_number gv2 = Some g2 -> py_number av2 = Some a2 ->
  g1 <= g2 -> a1 <= a2 ->
  exists l1 l2, calculate_risk_level s1 = Ret l1 /\ calculate_risk_level s2 = Ret l2 /\
                (risk_rank l2 <= risk_rank l1)%nat.
Proof.
  intros H1 H2 H3 H4 H5 H6 H7 H8 Hg Ha.
  rewrite (calculate_risk_level_numeric s1 gv1 av1 g1 a1 H1 H2 H5 H6).
  rewrite (calculate_risk_level_numeric s2 gv2 av2 g2 a2 H3 H4 H7 H8).
  do 2 eexists. split; [reflexivity|split; [reflexivity|]].
  qlt_cases; cbn; try lia; lra.
Qed.

(** The fallback of [predictor.py] (50/60, 70/75) is never more severe than
    the rules of [predict.py] (60/70, 75/80) on the same numbers. *)
Theorem predictor_fallback_le_predict_rules (s : student) (gv av : pyval) (g a : Q) :
  grade_average s = Some gv -> attendance_rate s = Some av ->
  py_number gv = Some g -> py_number av = Some a ->
  exists l, calculate_risk_level s = Ret l /\
            (risk_rank l <= risk_rank (Predict.risk_rules g a))%nat.
Proof.
  intros H1 H2 H3 H4.
  rewrite (calculate_risk_level_numeric s gv av g a H1 H2 H3 H4).
  eexists. split; [reflexivity|]. unfold Predict.risk_rules.
  qlt_cases; cbn; try lia; lra.
Qed.

Lemma to_numeric_no_overflow (parse_float : string -> option Q) (v : pyval) :
  no_overflow v -> exists q, Predict.to_numeric parse_float v = Ret q.
Proof.
  intros H. unfold Predict.to_numeric, Predict.py_float, try_except.
  destruct v; cbn; eauto.
  - cbn in H. rewrite (proj2 (Z.leb_gt _ _) H). cbn. eauto.
  - destruct (parse_float s); eauto.
Qed.

Lemma dict_get0_no_overflow (kvs : list (string * pyval)) (k : string) :
  key_ok no_overflow k kvs ->
  exists v, Predict.dict_get0 (PyDict kvs) k = Ret v /\ no_overflow v.
Proof.
  unfold key_ok, Predict.dict_get0. destruct (assoc_get k kvs); cbn; eauto.
  intros _. exists (PyInt 0). split; [reflexivity|cbn; lia].
Qed.

(** On a dict whose [grade] and [attendance] values (when present) do not
    overflow [float()], [predict.py] applies its rules to the two numbers,
    where a missing key or a value [float()] rejects counts as 0; so it
    answers one of the three labels, never ["Unknown Risk"]. *)
Theorem predict_py_dict_label3 (parse_float : string -> option Q)
  (kvs : list (string * pyval)) :
  key_ok no_overflow "grade" kvs -> key_ok no_overflow "attendance" kvs ->
  Predict.predict_student_risk parse_float (PyDict kvs) =
    Predict.risk_rules (float_or_0 parse_float (assoc_get "grade" kvs))
                       (float_or_0 parse_float (assoc_get "attendance" kvs)) /\
  is_label3 (Predict.predict_student_risk parse_float (PyDict kvs)).
Proof.
  intros Hg Ha.
  assert (Hn : forall k, key_ok no_overflow k kvs ->
            exists v, Predict.dict_get0 (PyDict kvs) k = Ret v /\
              Predict.to_numeric parse_float v = Ret (float_or_0 parse_float (assoc_get k kvs))).
  { intros k Hk. unfold key_ok, Predict.dict_get0, float_or_0 in *.
    destruct (assoc_get k kvs) as [v|]; [|exists (PyInt 0); split; reflexivity].
    exists v. split; [reflexivity|].
    unfold Predict.to_numeric, try_except.
    destruct (Predict.py_float parse_float v) as [q|e] eqn:E; [reflexivity|].
    destruct v; cbn [Predict.py_float] in E; unfold no_overflow in Hk;
      try (inversion E; subst; reflexivity).
    - rewrite (proj2 (Z.leb_gt _ _) Hk) in E. discriminate.
    - destruct (parse_float s); inversion E; reflexivity. }
  destruct (Hn "grade" Hg) as [g [Eg Ng]].
  destruct (Hn "attendance" Ha) as [a [Ea Na]].
  assert (H : Predict.predict_student_risk parse_float (PyDict kvs) =
    Predict.risk_rules (float_or_0 parse_float (assoc_get "grade" kvs))
                       (float_or_0 parse_float (assoc_get "attendance" kvs))).
  { unfold Predict.predict_student_risk. rewrite Eg, Ea. cbn [bind]. rewrite Ng, Na. reflexivity. }
  split; [exact H|]. rewrite H. apply Facts.risk_rules_label3.
Qed.


(** A dict without a [grade] key (or with [grade] = [None]) is rated
    ["High Risk"] by [predict.py], whatever its attendance, provided that
    value does not overflow [float()]. *)
Theorem predict_py_missing_grade_high (parse_float : string -> option Q)
  (kvs : list (string * pyval)) :
  match assoc_get "grade" kvs with None | Some PyNone => True | _ => False end ->
  key_ok no_overflow "attendance" kvs ->
  Predict.predict_student_risk parse_float (PyDict kvs) = "High Risk".
Proof.
  intros Hg Ha.
  destruct (dict_get0_no_overflow kvs "attendance" Ha) as [a [Ea Na]].
  destruct (to_numeric_no_overflow parse_float a Na) as [a' Ea'].
  unfold Predict.predict_student_risk.
  assert (Eg : Predict.dict_get0 (PyDict kvs) "grade" = Ret (PyInt 0)
               \/ Predict.dict_get0 (PyDict kvs) "grade" = Ret PyNone).
  { unfold Predict.dict_get0. destruct (assoc_get "grade" kvs) as [[]|]; auto; contradiction. }
  destruct Eg as [Eg|Eg]; rewrite Eg, Ea; cbn; rewrite Ea'; reflexivity.
Qed.

Lemma fold_min_le (xs : list Q) (acc : Q) :
  Utils.list_min acc xs <= acc /\ Forall (fun y => Utils.list_min acc xs <= y) xs.
Proof.
  unfold Utils.list_min. revert acc.
  induction xs as [|x xs IH]; intros acc; cbn.
  - split; [apply Qle_refl|constructor].
  - destruct (IH (if Qlt_bool x acc then x else acc)) as [H1 H2].
    destruct (Qlt_bool x acc) eqn:E; qlt_cases.
    + split; [lra|constructor; [exact H1|exact H2]].
    + split; [exact H1|constructor; [lra|exact H2]].
Qed.

Lemma fold_max_ge (xs : list Q) (acc : Q) :
  acc <= Utils.list_max acc xs /\ Forall (fun y => y <= Utils.list_max acc xs) xs.
Proof.
  unfold Utils.list_max. revert acc.
  induction xs as [|x xs IH]; intros acc; cbn.
  - split; [apply Qle_refl|constructor].
  - destruct (IH (if Qlt_bool acc x then x else acc)) as [H1 H2].
    destruct (Qlt_bool acc x) eqn:E; qlt_cases.
    + split; [lra|constructor; [exact H1|exact H2]].
    + split; [exact H1|constructor; [lra|exact H2]].
Qed.

Lemma fold_min_in (xs : list Q) (acc : Q) : In (Utils.list_min acc xs) (acc :: xs).
Proof.
  unfold Utils.list_min. revert acc.
  induction xs as [|x xs IH]; intros acc; cbn; [left; reflexivity|].
  destruct (IH (if Qlt_bool x acc then x else acc)) as [H|H];
  destruct (Qlt_bool x acc); cbn in *; auto.
Qed.

Lemma fold_max_in (xs : list Q) (acc : Q) : In (Utils.list_max acc xs) (acc :: xs).
Proof.
  unfold Utils.list_max. revert acc.
  induction xs as [|x xs IH]; intros acc; cbn; [left; reflexivity|].
  destruct (IH (if Qlt_bool acc x then x else acc)) as [H|H];
  destruct (Qlt_bool acc x); cbn in *; auto.
Qed.

Lemma length_pos_Q {A} (x : A) (xs : list A) :
  0 < inject_Z (Z.of_nat (length (x :: xs))).
Proof. unfold Qlt; cbn. lia. Qed.

(** For a non-empty grade list, [calculate_academic_metrics] reports as
    [grade_min] and [grade_max] the least and the greatest grade (both are
    grades of the list, and every grade lies between them), and
    [total_assignments] is the number of grades. *)
Theorem metrics_grade_min_max (g : Q) (gs : list Q) (att : list bool) :
  exists mn mx,
    assoc_get "grade_min" (Utils.calculate_academic_metrics (g :: gs) att) = Some (PyFloat mn) /\
    assoc_get "grade_max" (Utils.calculate_academic_metrics (g :: gs) att) = Some (PyFloat mx) /\
    assoc_get "total_assignments" (Utils.calculate_academic_metrics (g :: gs) att) =
      Some (PyInt (Z.of_nat (length (g :: gs)))) /\
    In mn (g :: gs) /\ In mx (g :: gs) /\
    Forall (fun y => mn <= y /\ y <= mx) (g :: gs).
Proof.
  exists (Utils.list_min g gs), (Utils.list_max g gs).
  do 3 (split; [reflexivity|]).
  split; [apply fold_min_in|]. split; [apply fold_max_in|].
  destruct (fold_min_le gs g) as [Hm1 Hm2].
  destruct (fold_max_ge gs g) as [HM1 HM2].
  constructor; [split; assumption|].
  rewrite Forall_forall in *. intros y Hy. split; auto.
Qed.


Lemma filter_length_le {A} (f : A -> bool) (l : list A) :
  (length (filter f l) <= length l)%nat.
Proof.
  induction l as [|x l IH]; cbn; [lia|]. destruct (f x); cbn; lia.
Qed.

(** [attendance_rate] is always in [0, 100]: a float in that range, or the
    int 0 (no grades, or no attendance records). *)
Theorem metrics_attendance_rate_bounds (grades : list Q) (att : list bool) :
  match assoc_get "attendance_rate" (Utils.calculate_academic_metrics grades att) with
  | Some (PyFloat q) => 0 <= q /\ q <= 100
  | Some (PyInt z) => z = 0%Z
  | _ => False
  end.
Proof.
  destruct grades as [|g gs]; [reflexivity|].
  destruct att as [|b bs]; [reflexivity|].
  cbn -[Utils.bool_mean]. unfold Utils.bool_mean.
  pose proof (filter_length_le (fun b => b) (b :: bs)) as Hle.
  pose proof (length_pos_Q b bs) as Hn.
  set (c := length (filter (fun b => b) (b :: bs))) in *.
  set (n := length (b :: bs)) in *.
  assert (Hc : 0 <= inject_Z (Z.of_nat c)) by (unfold Qle; cbn; lia).
  assert (Hcn : inject_Z (Z.of_nat c) <= inject_Z (Z.of_nat n))
    by (rewrite <- Zle_Qle; lia).
  assert (H0 : 0 <= inject_Z (Z.of_nat c) / inject_Z (Z.of_nat n)).
  { apply Qle_shift_div_l; [exact Hn|]. lra. }
  assert (H1 : inject_Z (Z.of_nat c) / inject_Z (Z.of_nat n) <= 1).
  { apply Qle_shift_div_r; [exact Hn|]. lra. }
  split; lra.
Qed.

Lemma existsb_at_true (l : list ascii) :
  existsb (fun c => Ascii.eqb c "@"%char) l = true -> In "@"%char l.
Proof.
  intros H. apply existsb_exists in H as [x [Hin Hx]].
  apply Ascii.eqb_eq in Hx. subst. exact Hin.
Qed.

Lemma existsb_at_false (l : list ascii) :
  existsb (fun c => Ascii.eqb c "@"%char) l = false -> ~ In "@"%char l.
Proof.
  intros H Hin. assert (existsb (fun c => Ascii.eqb c "@"%char) l = true) by
    (apply existsb_exists; exists "@"%char; split; [exact Hin|apply Ascii.eqb_refl]).
  congruence.
Qed.

Ltac bool_facts :=
  repeat match goal with
         | H : (_ || _) = true |- _ => apply orb_true_iff in H
         | H : (_ || _) = false |- _ => apply orb_false_iff in H; destruct H
         | H : Ascii.eqb _ _ = true |- _ => apply Ascii.eqb_eq in H
         | H : Ascii.eqb _ _ = false |- _ => apply Ascii.eqb_neq in H
         | H : existsb _ _ = true |- _ => apply existsb_at_true in H
         | H : existsb _ _ = false |- _ => apply existsb_at_false in H
         | H : negb _ = true |- _ => apply negb_true_iff in H
         | H : negb _ = false |- _ => apply negb_false_iff in H
         | H : String.eqb _ _ = true |- _ => apply String.eqb_eq in H
         | H : String.eqb _ _ = false |- _ => apply String.eqb_neq in H
         | H : _ \/ _ |- _ => destruct H
         end.

(** For a dict whose [student_id] and [name] are strings and whose [email]
    is a string or absent, [validate_student_data] returns normally, its
    flag is true exactly when the error list is empty, and that happens
    exactly when [student_id] starts with 'S' or 's', [name] is non-empty
    and [email] is empty, absent or contains '@'. *)
Theorem validate_student_data_strings (kvs : list (string * pyval)) (sid n : string) :
  assoc_get "student_id" kvs = Some (PyStr sid) ->
  assoc_get "name" kvs = Some (PyStr n) ->
  key_ok (fun v => exists e, v = PyStr e) "email" kvs ->
  exists b errs, Utils.validate_student_data (PyDict kvs) = Ret (b, errs) /\
    (b = true <-> errs = []) /\
    (b = true <-> (sid_ok sid /\ n <> "" /\ email_ok kvs)).
Proof.
  intros Hs Hn He.
  unfold Utils.validate_student_data, email_ok, key_ok in *.
  cbn [Utils.check_required]. unfold Utils.py_get. rewrite Hs, Hn. cbn [bind].
  destruct (assoc_get "email" kvs) as [v|] eqn:Ee.
  - destruct He as [e ->].
    destruct sid as [|c r]; cbn;
    repeat match goal with
           | |- context [if ?b then _ else _] =>
               lazymatch type of b with
               | bool => let E := fresh "E" in destruct b eqn:E; cbn
               end
           end;
    eexists _, _; (split; [reflexivity|]); bool_facts; cbn;
    (split; [split; intros; congruence|]);
    intuition (try congruence).
  - destruct sid as [|c r]; cbn;
    repeat match goal with
           | |- context [if ?b then _ else _] =>
               lazymatch type of b with
               | bool => let E := fresh "E" in destruct b eqn:E; cbn
               end
           end;
    eexists _, _; (split; [reflexivity|]); bool_facts; cbn;
    (split; [split; intros; congruence|]);
    intuition (try congruence).
Qed.

(** A truthy [student_id] that is not a [str] (an int, a list, ...) makes
    [validate_student_data] raise [AttributeError] at [.startswith], when
    [email] is falsy or absent. *)
Theorem validate_student_data_non_str_id (kvs : list (string * pyval)) (v : pyval) :
  assoc_get "student_id" kvs = Some v ->
  Utils.py_truthy v = true -> (forall s, v <> PyStr s) ->
  key_ok (fun e => Utils.py_truthy e = false) "email" kvs ->
  Utils.validate_student_data (PyDict kvs) = Exc AttributeError.
Proof.
  intros Hs Ht Hns He.
  unfold Utils.validate_student_data, key_ok in *.
  cbn [Utils.check_required]. unfold Utils.py_get. rewrite Hs. cbn [bind].
  destruct (assoc_get "name" kvs); cbn [bind];
  (destruct (assoc_get "email" kvs) as [e|]; cbn [bind];
   [rewrite He|]; cbn [bind]; rewrite Ht; cbn [bind];
   destruct v; try reflexivity; exfalso; eapply Hns; reflexivity).
Qed.

(** [safe_float] only raises [OverflowError], and only for an int too
    large for a double; every [ValueError] or [TypeError] of [float()]
    becomes the default. *)
Theorem safe_float_raises_only_overflow (parse_float : string -> option Q)
  (v : pyval) (d : Q) (e : py_exn) :
  Utils.safe_float parse_float v d = Exc e ->
  e = OverflowError /\ exists z, v = PyInt z /\ (2 ^ 1024 - 2 ^ 970 <= Z.abs z)%Z.
Proof.
  unfold Utils.safe_float, Predict.py_float, try_except.
  destruct v; try (cbn; discriminate).
  - destruct (2 ^ 1024 - 2 ^ 970 <=? Z.abs z)%Z eqn:E; cbn; intros H; [|discriminate].
    inversion H; subst. split; [reflexivity|]. exists z. split; [reflexivity|].
    apply Z.leb_le, E.
  - cbn. destruct (parse_float s); discriminate.
Qed.

Lemma forallb_firstn {A} (f : A -> bool) (n : nat) (l : list A) :
  forallb f l = true -> forallb f (firstn n l) = true.
Proof.
  revert l. induction n as [|n IH]; intros [|x l] H; cbn in *; auto.
  apply andb_prop in H as [H1 H2]. rewrite H1. cbn. auto.
Qed.

Lemma forallb_skipn {A} (f : A -> bool) (n : nat) (l : list A) :
  forallb f l = true -> forallb f (skipn n l) = true.
Proof.
  revert l. induction n as [|n IH]; intros [|x l] H; cbn in *; auto.
  apply andb_prop in H as [H1 H2]. auto.
Qed.

Lemma forallb_digits_of (l : list ascii) : forallb Utils.is_digit (Utils.digits_of l) = true.
Proof.
  induction l as [|c l IH]; cbn; [reflexivity|].
  destruct (Utils.is_digit c) eqn:E; cbn; [rewrite E|]; auto.
Qed.

Lemma split_3_3 (d : list ascii) : (firstn 3 d ++ firstn 3 (skipn 3 d) ++ skipn 6 d)%list = d.
Proof.
  replace (skipn 6 d) with (skipn 3 (skipn 3 d)) by (rewrite skipn_skipn; reflexivity).
  rewrite firstn_skipn, firstn_skipn. reflexivity.
Qed.

Lemma digits_of_10 (d : list ascii) :
  forallb Utils.is_digit d = true ->
  Utils.digits_of (Utils.lit "(" ++ Utils.slice 0 3 d ++ Utils.lit ") " ++ Utils.slice 3 6 d
                   ++ Utils.lit "-" ++ skipn 6 d)%list = d.
Proof.
  intros H. unfold Utils.digits_of, Utils.slice. rewrite !filter_app.
  rewrite (forallb_filter_id _ (firstn _ (skipn 0 d))) by auto using forallb_firstn, forallb_skipn.
  rewrite (forallb_filter_id _ (firstn _ (skipn 3 d))) by auto using forallb_firstn, forallb_skipn.
  rewrite (forallb_filter_id _ (skipn 6 d)) by auto using forallb_skipn.
  replace (filter Utils.is_digit (Utils.lit "(")) with (@nil ascii) by reflexivity.
  replace (filter Utils.is_digit (Utils.lit ") ")) with (@nil ascii) by reflexivity.
  replace (filter Utils.is_digit (Utils.lit "-")) with (@nil ascii) by reflexivity.
  apply split_3_3.
Qed.

Lemma digits_of_11 (d : list ascii) :
  forallb Utils.is_digit d = true ->
  hd_error d = Some "1"%char ->
  Utils.digits_of (Utils.lit "+1 (" ++ Utils.slice 1 4 d ++ Utils.lit ") " ++ Utils.slice 4 7 d
                   ++ Utils.lit "-" ++ skipn 7 d)%list = d.
Proof.
  intros H Hd. destruct d as [|c d']; [discriminate|]. cbn in Hd. inversion Hd; subst.
  cbn in H. apply andb_prop in H as [_ H].
  unfold Utils.digits_of, Utils.slice. rewrite !filter_app.
  rewrite (forallb_filter_id _ (firstn _ (skipn 1 _))) by auto using forallb_firstn, forallb_skipn.
  rewrite (forallb_filter_id _ (firstn _ (skipn 4 _))) by auto using forallb_firstn, forallb_skipn.
  rewrite (forallb_filter_id _ (skipn 7 _)) by auto using forallb_skipn.
  replace (filter Utils.is_digit (Utils.lit "+1 (")) with ["1"%char] by reflexivity.
  replace (filter Utils.is_digit (Utils.lit ") ")) with (@nil ascii) by reflexivity.
  replace (filter Utils.is_digit (Utils.lit "-")) with (@nil ascii) by reflexivity.
  change (skipn 1 ("1"%char :: d')) with d'.
  change (skipn 4 ("1"%char :: d')) with (skipn 3 d').
  change (skipn 7 ("1"%char :: d')) with (skipn 6 d').
  cbn [app]. f_equal. apply split_3_3.
Qed.

Lemma format_phone_cons (c : ascii) (l : list ascii) :
  Utils.format_phone_number (c :: l) =
  let digits := Utils.digits_of (c :: l) in
  if (length digits =? 10)%nat then
    (Utils.lit "(" ++ Utils.slice 0 3 digits ++ Utils.lit ") " ++ Utils.slice 3 6 digits
     ++ Utils.lit "-" ++ skipn 6 digits)%list
  else if (length digits =? 11)%nat &&
          match digits with c :: _ => Ascii.eqb c "1"%char | [] => false end then
    (Utils.lit "+1 (" ++ Utils.slice 1 4 digits ++ Utils.lit ") " ++ Utils.slice 4 7 digits
     ++ Utils.lit "-" ++ skipn 7 digits)%list
  else c :: l.
Proof. reflexivity. Qed.

(** [format_phone_number] keeps the sequence of digits of its input: the
    output has exactly the digits of the input, in the same order. *)
Theorem format_phone_number_digits (phone : list ascii) :
  Utils.digits_of (Utils.format_phone_number phone) = Utils.digits_of phone.
Proof.
  destruct phone as [|c l]; [reflexivity|].
  rewrite format_phone_cons. cbv zeta.
  pose proof (forallb_digits_of (c :: l)) as Hall.
  destruct (length (Utils.digits_of (c :: l)) =? 10)%nat eqn:E10.
  - apply digits_of_10, Hall.
  - destruct ((length (Utils.digits_of (c :: l)) =? 11)%nat &&
              match Utils.digits_of (c :: l) with
              | c0 :: _ => Ascii.eqb c0 "1"%char | [] => false end) eqn:E11;
    [|reflexivity].
    apply andb_prop in E11 as [_ E1].
    apply digits_of_11; [exact Hall|].
    destruct (Utils.digits_of (c :: l)) as [|c0 ds]; [discriminate|].
    apply Ascii.eqb_eq in E1. subst. reflexivity.
Qed.

(** [format_phone_number] is idempotent: formatting a formatted number
    gives it back unchanged. *)
Theorem format_phone_number_idempotent (phone : list ascii) :
  Utils.format_phone_number (Utils.format_phone_number phone) =
  Utils.format_phone_number phone.
Proof.
  destruct phone as [|c l]; [reflexivity|].
  pose proof (format_phone_number_digits (c :: l)) as Hd.
  rewrite format_phone_cons in Hd |- *. cbv zeta in Hd |- *.
  destruct (length (Utils.digits_of (c :: l)) =? 10)%nat eqn:E10.
  - cbn [Utils.lit list_ascii_of_string app]. rewrite format_phone_cons. cbv zeta.
    cbn [Utils.lit list_ascii_of_string app] in Hd. rewrite Hd, E10. reflexivity.
  - destruct ((length (Utils.digits_of (c :: l)) =? 11)%nat &&
              match Utils.digits_of (c :: l) with
              | c0 :: _ => Ascii.eqb c0 "1"%char | [] => false end) eqn:E11.
    + cbn [Utils.lit list_ascii_of_string app]. rewrite format_phone_cons. cbv zeta.
      cbn [Utils.lit list_ascii_of_string app] in Hd. rewrite Hd, E10, E11. reflexivity.
    + rewrite format_phone_cons. cbv zeta. rewrite E10, E11. reflexivity.
Qed.

(** A number with 10 digits is formatted to 14 characters,
    ["(ddd) ddd-dddd"]; one with 11 digits starting with 1 to 17,
    ["+1 (ddd) ddd-dddd"]. *)
Theorem format_phone_number_length (phone : list ascii) :
  (length (Utils.digits_of phone) = 10%nat ->
   length (Utils.format_phone_number phone) = 14%nat) /\
  (length (Utils.digits_of phone) = 11%nat ->
   hd_error (Utils.digits_of phone) = Some "1"%char ->
   length (Utils.format_phone_number phone) = 17%nat).
Proof.
  destruct phone as [|c l]; [split; cbn; discriminate|].
  rewrite format_phone_cons. cbv zeta.
  set (d := Utils.digits_of (c :: l)). clearbody d. split.
  - intros H. rewrite H. cbn [Nat.eqb]. unfold Utils.slice.
    rewrite !length_app, !length_firstn, !length_skipn, H. reflexivity.
  - intros H Hd. rewrite H. cbn [Nat.eqb andb].
    destruct d as [|c0 ds]; [discriminate|].
    cbn in Hd. inversion Hd; subst. cbn [Ascii.eqb Bool.eqb]. unfold Utils.slice.
    rewrite !length_app, !length_firstn, !length_skipn, H. reflexivity.
Qed.

(** [truncate_text] returns a text that fits unchanged; when the suffix
    fits in [max_length], a longer text is cut to its first
    [max_length - len(suffix)] characters followed by the suffix, which is
    exactly [max_length] characters long. *)
Theorem truncate_text_fits (text suffix : list ascii) (max_length : Z) :
  ((Z.of_nat (length text) <= max_length)%Z ->
   Utils.truncate_text text max_length suffix = text) /\
  ((Z.of_nat (length suffix) <= max_length < Z.of_nat (length text))%Z ->
   Utils.truncate_text text max_length suffix =
     (firstn (Z.to_nat (max_length - Z.of_nat (length suffix))) text ++ suffix)%list /\
   Z.of_nat (length (Utils.truncate_text text max_length suffix)) = max_length)%Z.
Proof.
  unfold Utils.truncate_text, Utils.py_prefix. split.
  - intros H. rewrite (proj2 (Z.leb_le _ _) H). reflexivity.
  - intros [H1 H2].
    rewrite (proj2 (Z.leb_gt _ _) H2).
    rewrite (proj2 (Z.leb_le 0 (max_length - Z.of_nat (length suffix)))) by lia.
    split; [reflexivity|].
    rewrite length_app, length_firstn. lia.
Qed.

(** When the suffix is longer than [max_length], the negative slice bound
    makes [truncate_text] return a text longer than [max_length]. *)
Theorem truncate_text_exceeds_short_limit (text suffix : list ascii) (max_length : Z) :
  (max_length < Z.of_nat (length suffix))%Z ->
  (max_length < Z.of_nat (length text))%Z ->
  (max_length < Z.of_nat (length (Utils.truncate_text text max_length suffix)))%Z.
Proof.
  intros H1 H2. unfold Utils.truncate_text.
  rewrite (proj2 (Z.leb_gt _ _) H2). rewrite length_app. lia.
Qed.

Lemma progress_ratio_bounds (a b : Z) :
  (0 <= a <= b)%Z -> (0 < b)%Z ->
  0 <= inject_Z a / inject_Z b * 100 <= 100.
Proof.
  intros Ha Hb. destruct b as [|p|p]; try lia.
  unfold Qle, Qdiv, Qmult, Qinv; cbn. lia.
Qed.

(** [calculate_semester_progress] returns a percentage in [0, 100]
    whenever the semester end lies after its start (the default end,
    120 days after the start, must be a valid date). *)
Theorem calculate_semester_progress_bounds (today start_date : Z) (end_date : option Z) :
  match end_date with
  | Some e => (start_date < e)%Z
  | None => (start_date + 120 <= Utils.date_max)%Z
  end ->
  exists q, Utils.calculate_semester_progress today start_date end_date = Utils.URet q /\
            0 <= q <= 100.
Proof.
  intros H. unfold Utils.calculate_semester_progress.
  assert (Hend : exists e, (start_date < e)%Z /\
            (match end_date with
             | None => if (start_date + 120 <=? Utils.date_max)%Z then Utils.URet (start_date + 120)%Z
                       else Utils.URaise (Utils.PyErr OverflowError)
             | Some e => Utils.URet e end) = Utils.URet e).
  { destruct end_date as [e|].
    - exists e. auto.
    - exists (start_date + 120)%Z. rewrite (proj2 (Z.leb_le _ _) H). split; [lia|reflexivity]. }
  destruct Hend as [e [He ->]]. cbn [Utils.ubind].
  destruct (today <? start_date)%Z eqn:E1.
  { exists 0. split; [reflexivity|]. split; discriminate. }
  destruct (e <? today)%Z eqn:E2.
  { exists 100. split; [reflexivity|]. split; discriminate. }
  apply Z.ltb_ge in E1. apply Z.ltb_ge in E2.
  rewrite (proj2 (Z.eqb_neq _ _)) by lia.
  eexists. split; [reflexivity|]. apply progress_ratio_bounds; lia.
Qed.

(** [calculate_semester_progress] raises exactly in two cases:
    [ZeroDivisionError] when today, the start and the given end are the
    same day, and [OverflowError] when no end is given and the start is
    within 120 days of [date.max]. *)
Theorem calculate_semester_progress_raises_iff (today start_date : Z) (end_date : option Z)
  (e : Utils.util_exn) :
  Utils.calculate_semester_progress today start_date end_date = Utils.URaise e <->
  (e = Utils.ZeroDivisionError /\ end_date = Some start_date /\ today = start_date) \/
  (e = Utils.PyErr OverflowError /\ end_date = None /\ (Utils.date_max < start_date + 120)%Z).
Proof.
  unfold Utils.calculate_semester_progress.
  assert (Hcore : forall d, Utils.ubind (Utils.URet d) (fun end_d =>
            if (today <? start_date)%Z then Utils.URet 0
            else if (end_d <? today)%Z then Utils.URet 100
            else if (end_d - start_date =? 0)%Z then Utils.URaise Utils.ZeroDivisionError
            else Utils.URet (inject_Z (today - start_date) / inject_Z (end_d - start_date) * 100))
            = Utils.URaise e <->
            e = Utils.ZeroDivisionError /\ d = start_date /\ today = start_date).
  { intros d. cbn [Utils.ubind].
    destruct (today <? start_date)%Z eqn:E1;
      [split; [discriminate|intros (_ & _ & ?); apply Z.ltb_lt in E1; lia]|].
    destruct (d <? today)%Z eqn:E2;
      [split; [discriminate|intros (_ & ? & ?); apply Z.ltb_lt in E2; lia]|].
    apply Z.ltb_ge in E1. apply Z.ltb_ge in E2.
    destruct (d - start_date =? 0)%Z eqn:E3.
    - apply Z.eqb_eq in E3. split.
      + intros Hx. inversion Hx. repeat split; lia.
      + intros (-> & _ & _). reflexivity.
    - apply Z.eqb_neq in E3. split; [discriminate|intros (_ & ? & _); lia]. }
  destruct end_date as [d|].
  - rewrite (Hcore d). split.
    + intros (? & -> & ?). left. auto.
    + intros [(? & Hd & ?)|(_ & Hd & _)]; [inversion Hd; subst; auto|discriminate].
  - destruct (start_date + 120 <=? Utils.date_max)%Z eqn:E.
    + rewrite (Hcore (start_date + 120)%Z). apply Z.leb_le in E. split.
      * intros (_ & ? & _). lia.
      * intros [(_ & Hd & _)|(_ & _ & ?)]; [discriminate|lia].
    + cbn [Utils.ubind]. apply Z.leb_gt in E. split.
      * intros Hx. inversion Hx. right. auto.
      * intros [(_ & Hd & _)|(-> & _ & _)]; [discriminate|reflexivity].
Qed.

Ltac report_steps H :=
  repeat match type of H with
  | context [Utils.ubind ?m _] =>
      lazymatch m with
      | Utils.ubind _ _ => fail
      | if _ then _ else _ => fail
      | _ => destruct m eqn:?; cbn [Utils.ubind] in H; try discriminate H
      end
  | context [if ?b then _ else _] =>
      is_var b; destruct b; cbn [Utils.ubind] in H; try discriminate H
  end.

(** Every report [generate_student_report] returns carries at least one
    recommendation: either only high-priority ones, or exactly the single
    low-priority "Continue current support" entry. *)
Theorem generate_student_report_recommendations
  (format_1f : Q -> string) (now : string) (student_data : pyval)
  (include_charts : bool) (r : Utils.report) :
  Utils.generate_student_report format_1f now student_data include_charts = Utils.URet r ->
  Utils.recommendations r <> [] /\
  (Forall (fun x => Utils.priority x = "high") (Utils.recommendations r) \/
   Utils.recommendations r =
     [Utils.mkRec "general" "low" "Continue current support" "Student performing adequately"]).
Proof.
  intros H. unfold Utils.generate_student_report in H. report_steps H.
  all: cbv zeta in H; injection H as <-; cbn [Utils.recommendations].
  all: repeat match goal with
              | |- context [match ?v with PyNone => _ | _ => _ end] => destruct v
              | |- context [if String.eqb ?a ?b then _ else _] => destruct (String.eqb a b)
              end.
  all: cbn [app].
  all: first [ split; [discriminate|right; reflexivity]
             | split; [discriminate|left; repeat constructor] ].
Qed.

(** A report whose metrics dict lacks ["grade_average"] raises
    [KeyError('grade_average')]: [metrics.get('grade_average', 0)] is [0],
    below 60, and the reason then reads [metrics["grade_average"]]. *)
Theorem generate_student_report_missing_grade_average
  (format_1f : Q -> string) (now : string) (skvs mkvs rkvs : list (string * pyval))
  (include_charts : bool) :
  Utils.py_get (PyDict skvs) "metrics" (PyDict []) = Ret (PyDict mkvs) ->
  Utils.py_get (PyDict skvs) "risk_assessment" (PyDict []) = Ret (PyDict rkvs) ->
  assoc_get "grade_average" mkvs = None ->
  Utils.generate_student_report format_1f now (PyDict skvs) include_charts =
    Utils.URaise (Utils.KeyError "grade_average").
Proof.
  intros Hm Hr Hg. unfold Utils.generate_student_report.
  rewrite Hm, Hr. cbn [Utils.py_get Utils.lift Utils.ubind].
  repeat match goal with
         | |- context [assoc_get ?k skvs] => destruct (assoc_get k skvs)
         end;
  destruct (assoc_get "level" rkvs); cbn; rewrite Hg; reflexivity.
Qed.

Lemma update_loop_ret_iff (art : Predictor.artifact) (db : list Predictor.student) :
  (exists db', Predictor.update_loop art db = Ret db') <->
  Forall (fun s => exists v, Predictor.predict_student_risk art s = Ret v) db.
Proof.
  induction db as [|s rest IH]; cbn.
  - split; [constructor|eauto].
  - destruct (Predictor.predict_student_risk art s) as [v|e] eqn:Hs; cbn.
    + destruct (Predictor.update_loop art rest) as [rest'|e'] eqn:Hl; cbn.
      * split; [|eauto]. intros _. constructor; [eauto|]. apply IH. eauto.
      * split; [intros [? Hx]; discriminate|].
        intros Hf. inversion Hf as [|? ? _ Hrest]; subst.
        apply IH in Hrest as [? Hx]. discriminate.
    + split; [intros [? Hx]; discriminate|].
      intros Hf. inversion Hf as [|? ? [v Hv]]; congruence.
Qed.

(** The [/api/update_risks] handler redirects an anonymous request to the
    login page without touching the table.  For a logged-in user it
    answers [success: True] when every student's prediction returns, with
    every [risk_level] set and committed; otherwise it answers
    [success: False] with the exception's text and the committed table is
    unchanged. *)
Theorem api_update_risks_outcome (exn_str : py_exn -> string)
  (art : Predictor.artifact) (db : list Predictor.student) :
  App.api_update_risks exn_str false art db = (App.LoginRedirect, db) /\
  (Forall (fun s => exists v, Predictor.predict_student_risk art s = Ret v) db ->
   exists db', App.api_update_risks exn_str true art db =
                 (App.JsonBody true "Risk levels updated successfully", db') /\
               Forall2 (Predictor.updated_with art) db db') /\
  (~ Forall (fun s => exists v, Predictor.predict_student_risk art s = Ret v) db ->
   exists e, App.api_update_risks exn_str true art db =
               (App.JsonBody false ("Error updating risks: " ++ exn_str e), db)).
Proof.
  unfold App.api_update_risks, Predictor.update_all_student_risks.
  split; [reflexivity|]. cbn [negb]. split; intros H.
  - destruct (update_loop_ok art db H) as [db' [E F]]. rewrite E. eauto.
  - destruct (Predictor.update_loop art db) as [db'|e] eqn:E.
    + exfalso. apply H, update_loop_ret_iff. eauto.
    + eauto.
Qed.


Lemma file_at_put_same {M : Type} (p : string) (v : Train.stored M) (fs : Train.files M) :
  file_at p (Train.put_file M p v fs) = Some v.
Proof. unfold file_at, Train.put_file. cbn. rewrite String.eqb_refl. reflexivity. Qed.

Lemma file_at_put_other {M : Type} (p q : string) (v : Train.stored M) (fs : Train.files M) :
  q <> p -> file_at p (Train.put_file M q v fs) = file_at p fs.
Proof.
  intros Hqp. unfold file_at, Train.put_file. cbn.
  rewrite (proj2 (String.eqb_neq q p) Hqp).
  induction fs as [|[k w] fs IH]; cbn; [reflexivity|].
  destruct (String.eqb k q) eqn:Ek; cbn.
  - apply String.eqb_eq in Ek. subst. rewrite (proj2 (String.eqb_neq q p) Hqp). exact IH.
  - destruct (String.eqb k p); [reflexivity|exact IH].
Qed.

(** When both [joblib.dump] calls succeed, [train_model] returns normally,
    [data/trained_model.pkl] holds the fitted model,
    [data/feature_info.pkl] the feature names with the accuracy, and every
    other file is as it was. *)
Theorem train_model_writes_artifacts
  (model_t : Type) (fit : list (list Q) -> list Z -> result (model_t * Q))
  (dump_error : string -> Train.files model_t -> option (py_exn * bool))
  (ds : Train.dataset) (fs : Train.files model_t) (m : model_t) (acc : Q) :
  Train.X ds <> [] ->
  fit (Train.X ds) (Train.y ds) = Ret (m, acc) ->
  dump_error "data/trained_model.pkl" fs = None ->
  dump_error "data/feature_info.pkl"
    (Train.put_file model_t "data/trained_model.pkl" (Train.ModelPickle model_t m) fs) = None ->
  let '(r, fs', _) := Train.train_model model_t fit dump_error (Ret ds) fs in
  r = Ret tt /\
  file_at "data/trained_model.pkl" fs' = Some (Train.ModelPickle model_t m) /\
  file_at "data/feature_info.pkl" fs' =
    Some (Train.FeatureInfo model_t (Train.feature_names ds) acc) /\
  (forall p, p <> "data/trained_model.pkl" -> p <> "data/feature_info.pkl" ->
   file_at p fs' = file_at p fs).
Proof.
  intros HX Hfit H1 H2. unfold Train.train_model.
  destruct (Train.X ds) as [|x xs] eqn:EX; [contradiction|].
  rewrite Hfit. unfold Train.write_file. rewrite H1, H2.
  split; [reflexivity|]. split; [|split].
  - rewrite file_at_put_other by discriminate. apply file_at_put_same.
  - apply file_at_put_same.
  - intros p Hp1 Hp2.
    rewrite file_at_put_other by congruence. apply file_at_put_other. congruence.
Qed.

(** When [joblib.dump] of the model raises, [train_model] re-raises and
    leaves [data/feature_info.pkl] as it was, [data/trained_model.pkl]
    being unchanged or truncated.  When the model is saved but the dump of
    the feature info raises, [train_model] re-raises with the new model in
    place and [data/feature_info.pkl] unchanged (so describing an earlier
    model) or truncated. *)
Theorem train_model_dump_failure
  (model_t : Type) (fit : list (list Q) -> list Z -> result (model_t * Q))
  (dump_error : string -> Train.files model_t -> option (py_exn * bool))
  (ds : Train.dataset) (fs : Train.files model_t) (m : model_t) (acc : Q)
  (e : py_exn) (opened : bool) :
  Train.X ds <> [] ->
  fit (Train.X ds) (Train.y ds) = Ret (m, acc) ->
  (dump_error "data/trained_model.pkl" fs = Some (e, opened) ->
   let '(r, fs', _) := Train.train_model model_t fit dump_error (Ret ds) fs in
   r = Exc e /\
   file_at "data/trained_model.pkl" fs' =
     (if opened then Some (Train.Truncated model_t)
      else file_at "data/trained_model.pkl" fs) /\
   file_at "data/feature_info.pkl" fs' = file_at "data/feature_info.pkl" fs) /\
  (dump_error "data/trained_model.pkl" fs = None ->
   dump_error "data/feature_info.pkl"
     (Train.put_file model_t "data/trained_model.pkl" (Train.ModelPickle model_t m) fs)
     = Some (e, opened) ->
   let '(r, fs', _) := Train.train_model model_t fit dump_error (Ret ds) fs in
   r = Exc e /\
   file_at "data/trained_model.pkl" fs' = Some (Train.ModelPickle model_t m) /\
   file_at "data/feature_info.pkl" fs' =
     (if opened then Some (Train.Truncated model_t)
      else file_at "data/feature_info.pkl" fs)).
Proof.
  intros HX Hfit. unfold Train.train_model.
  destruct (Train.X ds) as [|x xs] eqn:EX; [contradiction|].
  rewrite Hfit. unfold Train.write_file. split.
  - intros H1. rewrite H1. split; [reflexivity|].
    destruct opened; [|split; reflexivity].
    split; [apply file_at_put_same|]. apply file_at_put_other. discriminate.
  - intros H1 H2. rewrite H1, H2. split; [reflexivity|].
    destruct opened.
    + split; [|apply file_at_put_same].
      rewrite file_at_put_other by discriminate. apply file_at_put_same.
    + split; [apply file_at_put_same|]. apply file_at_put_other. discriminate.
Qed.

(** When [prepare_training_data] or the fit raises, [train_model]
    re-raises the same exception and writes no file. *)
Theorem train_model_reraises
  (model_t : Type) (fit : list (list Q) -> list Z -> result (model_t * Q))
  (dump_error : string -> Train.files model_t -> option (py_exn * bool))
  (prepared : result Train.dataset) (fs : Train.files model_t) (e : py_exn) :
  (prepared = Exc e \/
   exists ds, prepared = Ret ds /\ Train.X ds <> [] /\ fit (Train.X ds) (Train.y ds) = Exc e) ->
  let '(r, fs', _) := Train.train_model model_t fit dump_error prepared fs in
  r = Exc e /\ fs' = fs.
Proof.
  intros [->|(ds & -> & HX & Hfit)]; [split; reflexivity|].
  unfold Train.train_model.
  destruct (Train.X ds) as [|x xs] eqn:EX; [contradiction|].
  rewrite Hfit. split; reflexivity.
Qed.

(** Witnesses: each theorem above with a hypothesis, applied at a
    concrete input. *)

Lemma risk_rules_antitone_witness :
  (risk_rank (Predict.risk_rules 80 90) <= risk_rank (Predict.risk_rules 55 65))%nat.
Proof.
  apply (risk_rules_antitone 55 65 80 90); unfold Qle; simpl; lia.
Defined.

Lemma calculate_risk_level_antitone_witness :
  exists l1 l2, calculate_risk_level s55 = Ret l1 /\
    calculate_risk_level (mkStudent 3 (Some (PyInt 80)) (Some (PyInt 90)) PyNone) = Ret l2 /\
    (risk_rank l2 <= risk_rank l1)%nat.
Proof.
  apply (calculate_risk_level_antitone s55
           (mkStudent 3 (Some (PyInt 80)) (Some (PyInt 90)) PyNone)
           (PyInt 55) (PyInt 65) (PyInt 80) (PyInt 90)
           (inject_Z 55) (inject_Z 65) (inject_Z 80) (inject_Z 90));
  try reflexivity; unfold Qle; simpl; lia.
Defined.

Lemma predictor_fallback_le_predict_rules_witness :
  exists l, calculate_risk_level s55 = Ret l /\
            (risk_rank l <= risk_rank (Predict.risk_rules (inject_Z 55) (inject_Z 65)))%nat.
Proof.
  apply (predictor_fallback_le_predict_rules s55 (PyInt 55) (PyInt 65)
           (inject_Z 55) (inject_Z 65)); reflexivity.
Defined.

Lemma predict_py_dict_label3_witness :
  Predict.predict_student_risk (fun _ => None)
    (PyDict [("grade", PyStr "abc"); ("attendance", PyInt 95)]) =
    Predict.risk_rules 0 (inject_Z 95) /\
  is_label3 (Predict.predict_student_risk (fun _ => None)
               (PyDict [("grade", PyStr "abc"); ("attendance", PyInt 95)])).
Proof.
  apply (predict_py_dict_label3 (fun _ => None) [("grade", PyStr "abc"); ("attendance", PyInt 95)]);
  vm_compute; [exact I|reflexivity].
Defined.


Lemma predict_py_missing_grade_high_witness :
  Predict.predict_student_risk (fun _ => None) (PyDict [("attendance", PyInt 90)]) = "High Risk".
Proof.
  apply (predict_py_missing_grade_high (fun _ => None) [("attendance", PyInt 90)]);
  vm_compute; [exact I|reflexivity].
Defined.

Lemma validate_student_data_strings_witness :
  exists b errs,
    Utils.validate_student_data
      (PyDict [("student_id", PyStr "S1"); ("name", PyStr "Ann"); ("email", PyStr "a@b")])
      = Ret (b, errs) /\
    (b = true <-> errs = []) /\
    (b = true <-> (sid_ok "S1" /\ "Ann" <> "" /\
                   email_ok [("student_id", PyStr "S1"); ("name", PyStr "Ann");
                             ("email", PyStr "a@b")])).
Proof.
  apply (validate_student_data_strings
           [("student_id", PyStr "S1"); ("name", PyStr "Ann"); ("email", PyStr "a@b")]
           "S1" "Ann"); simpl; [reflexivity|reflexivity|].
  exists "a@b". reflexivity.
Defined.

Lemma validate_student_data_non_str_id_witness :
  Utils.validate_student_data (PyDict [("student_id", PyInt 7)]) = Exc AttributeError.
Proof.
  apply (validate_student_data_non_str_id [("student_id", PyInt 7)] (PyInt 7));
  [reflexivity|reflexivity| |simpl; exact I].
  intros s. discriminate.
Defined.

Lemma safe_float_raises_only_overflow_witness :
  OverflowError = OverflowError /\
  exists z, PyInt (2 ^ 1024) = PyInt z /\ (2 ^ 1024 - 2 ^ 970 <= Z.abs z)%Z.
Proof.
  apply (safe_float_raises_only_overflow (fun _ => None) (PyInt (2 ^ 1024)) 0 OverflowError).
  vm_compute. reflexivity.
Defined.

Lemma format_phone_number_length_witness :
  length (Utils.format_phone_number (Utils.lit "555.123.4567")) = 14%nat /\
  length (Utils.format_phone_number (Utils.lit "1 555 123 4567")) = 17%nat.
Proof.
  split.
  - apply (proj1 (format_phone_number_length (Utils.lit "555.123.4567"))).
    vm_compute. reflexivity.
  - apply (proj2 (format_phone_number_length (Utils.lit "1 555 123 4567")));
    vm_compute; reflexivity.
Defined.

Lemma truncate_text_fits_witness :
  Utils.truncate_text (Utils.lit "hello world") 8 (Utils.lit "...") =
    (firstn 5 (Utils.lit "hello world") ++ Utils.lit "...")%list /\
  Z.of_nat (length (Utils.truncate_text (Utils.lit "hello world") 8 (Utils.lit "..."))) = 8%Z.
Proof.
  apply (proj2 (truncate_text_fits (Utils.lit "hello world") (Utils.lit "...") 8)).
  simpl. lia.
Defined.

Lemma truncate_text_exceeds_short_limit_witness :
  (2 < Z.of_nat (length (Utils.truncate_text (Utils.lit "hello") 2 (Utils.lit "..."))))%Z.
Proof.
  apply (truncate_text_exceeds_short_limit (Utils.lit "hello") (Utils.lit "...") 2);
  simpl; lia.
Defined.

Lemma calculate_semester_progress_bounds_witness :
  exists q, Utils.calculate_semester_progress 30 0 (Some 120%Z) = Utils.URet q /\
            0 <= q <= 100.
Proof.
  apply (calculate_semester_progress_bounds 30 0 (Some 120%Z)). simpl. lia.
Defined.

Lemma generate_student_report_recommendations_witness :
  exists r,
    Utils.generate_student_report (fun _ => "50.0") "2026-01-01T00:00:00"
      (PyDict [("metrics", PyDict [("grade_average", PyInt 50);
                                   ("attendance_rate", PyInt 90)])]) true = Utils.URet r /\
    Utils.recommendations r <> [] /\
    (Forall (fun x => Utils.priority x = "high") (Utils.recommendations r) \/
     Utils.recommendations r =
       [Utils.mkRec "general" "low" "Continue current support" "Student performing adequately"]).
Proof.
  eexists. split; [reflexivity|].
  apply (generate_student_report_recommendations (fun _ => "50.0") "2026-01-01T00:00:00"
           (PyDict [("metrics", PyDict [("grade_average", PyInt 50);
                                        ("attendance_rate", PyInt 90)])]) true).
  reflexivity.
Defined.

Lemma generate_student_report_missing_grade_average_witness :
  Utils.generate_student_report (fun _ => "0.0") "2026-01-01T00:00:00" (PyDict []) true =
    Utils.URaise (Utils.KeyError "grade_average").
Proof.
  apply (generate_student_report_missing_grade_average (fun _ => "0.0")
           "2026-01-01T00:00:00" [] [] [] true); reflexivity.
Defined.

Lemma api_update_risks_outcome_witness :
  exists e : py_exn, App.api_update_risks (fun _ => "unsupported operand") true no_model [s_none; s55] =
    (App.JsonBody false ("Error updating risks: " ++ "unsupported operand"), [s_none; s55]).
Proof.
  apply (proj2 (proj2 (api_update_risks_outcome (fun _ => "unsupported operand") no_model
                         [s_none; s55]))).
  intros Hf. inversion Hf as [|? ? [v Hv] _]. vm_compute in Hv. discriminate.
Defined.

Lemma train_model_writes_artifacts_witness :
  let '(r, fs', _) :=
    Train.train_model unit (fun _ _ => Ret (tt, 1)) (fun _ _ => None)
      (Ret (Train.mkDataset [[55; 65]] [1%Z] ["grade_average"; "attendance_rate"])) [] in
  r = Ret tt /\
  file_at "data/trained_model.pkl" fs' = Some (Train.ModelPickle unit tt) /\
  file_at "data/feature_info.pkl" fs' =
    Some (Train.FeatureInfo unit ["grade_average"; "attendance_rate"] 1) /\
  (forall p, p <> "data/trained_model.pkl" -> p <> "data/feature_info.pkl" ->
   file_at p fs' = file_at p (@nil (string * Train.stored unit))).
Proof.
  apply (train_model_writes_artifacts unit (fun _ _ => Ret (tt, 1)) (fun _ _ => None)
           (Train.mkDataset [[55; 65]] [1%Z] ["grade_average"; "attendance_rate"]) [] tt 1).
  - simpl. discriminate.
  - reflexivity.
  - reflexivity.
  - reflexivity.
Defined.

Lemma train_model_dump_failure_witness :
  let '(r, fs', _) :=
    Train.train_model unit (fun _ _ => Ret (tt, 1))
      (fun p _ => if String.eqb p "data/feature_info.pkl" then Some (OSError, false) else None)
      (Ret (Train.mkDataset [[55; 65]] [1%Z] ["grade_average"; "attendance_rate"]))
      [("data/feature_info.pkl", Train.FeatureInfo unit ["old"] 0)] in
  r = Exc OSError /\
  file_at "data/trained_model.pkl" fs' = Some (Train.ModelPickle unit tt) /\
  file_at "data/feature_info.pkl" fs' =
    file_at "data/feature_info.pkl" [("data/feature_info.pkl", Train.FeatureInfo unit ["old"] 0)].
Proof.
  apply (proj2 (train_model_dump_failure unit (fun _ _ => Ret (tt, 1))
           (fun p _ => if String.eqb p "data/feature_info.pkl" then Some (OSError, false) else None)
           (Train.mkDataset [[55; 65]] [1%Z] ["grade_average"; "attendance_rate"])
           [("data/feature_info.pkl", Train.FeatureInfo unit ["old"] 0)] tt 1 OSError false
           ltac:(simpl; discriminate) eq_refl)); reflexivity.
Defined.

Lemma train_model_reraises_witness :
  let '(r, fs', _) :=
    Train.train_model unit (fun _ _ => Ret (tt, 1)) (fun _ _ => None) (Exc ValueError) [] in
  r = Exc ValueError /\ fs' = [].
Proof.
  apply (train_model_reraises unit (fun _ _ => Ret (tt, 1)) (fun _ _ => None)
           (Exc ValueError) [] ValueError).
  left. reflexivity.
Defined.

End Extras.
